(** * Conditional-GAN training notebook: a shallow embedding

    The notebook [notebooks/conditional_gan/Conditional-GAN-training.ipynb]
    is glue code around a deep-learning framework.  Its own code is control
    flow, Python float arithmetic on loss values, list appends and file
    names; everything else is a call into a collaborator (PyTorch, NumPy,
    torchvision, matplotlib, the filesystem).

    The embedding follows that split:
    - Python floats are IEEE-754 binary64 values ([PyFloat], on [spec_float]);
    - a notebook function is a program [Prog A]: a tree of collaborator
      calls ([Call X]) whose continuations are the Python code between the
      calls.  A program can return, call, or raise; there is no construct
      that catches, because the notebook has no [try];
    - [run] executes a program against a handler, which answers every call
      (or makes it raise) and threads the state of the outside world; it
      returns the trace of calls, the outcome and the final world;
    - [Torch] is one handler: PyTorch's bookkeeping of parameters, gradients
      and autograd graphs under forward, detach, backward, zero_grad and
      step, around kernels that are left open;
    - [Cells] is the notebook's sequence of cells over its global names;
    - [GeneratorNet] is the generator network as a function on tensors of
      real numbers;
    - [Toy] is a small concrete world in which the programs can be run. *)

From Stdlib Require Import ZArith List String Lia Bool Reals Lra.
From Stdlib Require Import Floats.SpecFloat.
From Stdlib Require Import DecimalString DecimalNat.
From stdpp Require Import base gmap strings.
Import ListNotations.

Set Implicit Arguments.
Set Default Proof Using "Type".

(** ** Python floats *)

Module PyFloat.

(** A Python [float] is a binary64 number: 53 bits of precision,
    infinities at exponent 1024. *)
Definition float := spec_float.

Definition prec : Z := 53.
Definition emax : Z := 1024.

Definition zero : float := S754_zero false.
Definition nan : float := S754_nan.

(** [float(n)] for a Python int. *)
Definition of_Z (z : Z) : float := binary_normalize prec emax z 0 false.
Definition of_nat (n : nat) : float := of_Z (Z.of_nat n).

(** [x + y] and [x / y] on floats; the divisor of [/] is checked for
    zero by the caller ([truediv] below), as Python does before it
    divides. *)
Definition add (x y : float) : float := SFadd prec emax x y.
Definition div (x y : float) : float := SFdiv prec emax x y.


(** [sum] as the loop computes it: a left fold of [+=]. *)
Definition sum_from (acc : float) (xs : list float) : float :=
  fold_left add xs acc.

End PyFloat.

Abbreviation float := PyFloat.float.

(** ** Exceptions *)

(** [ZeroDivisionError], [KeyError], [NameError] and [TypeError] are
    raised by Python itself in the notebook's own code; [Failure] stands
    for whatever a collaborator raises (a missing dataset, out of memory,
    a full disk, a shape mismatch). *)
Inductive Exn : Type :=
| ZeroDivisionError
| KeyError (key : string)
| NameError (name : string)
| TypeError (what : string)
| Failure (what : string).

(** ** The collaborators' interface *)

(** The kinds of object the collaborators hand back.  The notebook never
    looks inside them. *)
Class Framework : Type := {
  Tensor : Type;      (* torch.Tensor, float or long *)
  Array : Type;       (* numpy.ndarray *)
  Net : Type;         (* nn.Module *)
  Optim : Type;       (* torch.optim.Optimizer *)
  LossFn : Type;      (* the criterion passed as adv_loss *)
  Dataset : Type;     (* torchvision dataset *)
  DataLoader : Type;  (* torch.utils.data.DataLoader *)
  Image : Type;       (* the array plt.imread returns *)
  Figure : Type;      (* matplotlib figure *)
  Axes : Type         (* matplotlib axes *)
}.

(** The device is the Python string ['cuda'] or ['cpu']. *)
Definition Device := string.

(** torchvision transforms, as the data [get_dataloader] builds; a list of
    them stands for [transforms.Compose([...])]. *)
Inductive Transform : Type :=
| Resize (size : list nat)
| ToTensor
| Normalize (mean std : list float).

(** What [print] is given. *)
Inductive Message : Type :=
| EpochHeader (epoch : nat) (last : Z)   (* 'Epoch {}/{}'.format(epoch, epochs - 1) *)
| Dashes (n : nat)                      (* '-' * 10 *)
| LossLine (g d : float).               (* 'G Loss: {:.4f} D Loss: {:.4f}' *)

Section Calls.
Context `{Framework}.

(** One constructor per collaborator call the notebook makes; the index
    is the type of what the call returns.

    [Iterate dl] is one pass of [for x, y in dataloader]: it answers with
    the batches of that pass, in order, so a failure while loading is a
    failure of this call.  [Len dl] is [len(dataloader)].  Method calls on
    tensors, modules and optimizers take the object as first argument:
    [To t device] is [t.to(device)], [Shape0 t] is [t.shape[0]], [Data t]
    is [t.data], [DivInt t k] is [t / k], [Forward m z y] is [m(z, y)],
    [Criterion l input target] is [l(input, target)].  [NewGenerator] and
    [NewDiscriminator] build the two modules with freshly drawn
    parameters; what the generator then computes is [GeneratorNet]. *)
Inductive Call : Type -> Type :=
(* builtins and the shell *)
| Print (m : Message) : Call unit
| Shell (command : string) : Call unit
(* torch *)
| ManualSeed (seed : Z) : Call unit
| SetCudnnDeterministic (b : bool) : Call unit
| SetCudnnBenchmark (b : bool) : Call unit
| CudaIsAvailable : Call bool
(* data *)
| MNIST (root : string) (train download : bool) (transform : list Transform) : Call Dataset
| NewDataLoader (ds : Dataset) (batch_size : nat) (shuffle : bool) : Call DataLoader
| Iterate (dl : DataLoader) : Call (list (Tensor * Tensor))
| Len (dl : DataLoader) : Call nat
(* tensors *)
| To (t : Tensor) (device : Device) : Call Tensor
| Shape0 (t : Tensor) : Call nat
| FloatTensorNew (rows cols : nat) : Call Tensor        (* torch.FloatTensor(r, c) *)
| Fill (t : Tensor) (value : float) : Call Tensor       (* t.fill_(v) *)
| NpRandomNormal (loc scale : Z) (rows cols : nat) : Call Array
| NpRandomRandint (low high : nat) (size : nat) : Call Array
| NpArray (values : list nat) : Call Array
| FloatTensor (a : Array) : Call Tensor
| LongTensor (a : Array) : Call Tensor
| Detach (t : Tensor) : Call Tensor
| Data (t : Tensor) : Call Tensor
| Add (a b : Tensor) : Call Tensor
| DivInt (a : Tensor) (k : Z) : Call Tensor
| Item (t : Tensor) : Call float
| Backward (t : Tensor) : Call unit
(* modules, criteria and optimizers *)
| NewGenerator (n_classes : nat) (img_shape : list nat) (latent_dim : nat) : Call Net
| NewDiscriminator (n_classes : nat) (img_shape : list nat) : Call Net
| NetTo (m : Net) (device : Device) : Call Net
| Forward (m : Net) (input labels : Tensor) : Call Tensor
| SetEval (m : Net) : Call unit
| SetTrain (m : Net) : Call unit
| Adam (m : Net) (lr : float) : Call Optim
| ZeroGrad (o : Optim) : Call unit
| Step (o : Optim) : Call unit
| BCEWithLogitsLoss : Call LossFn
| MSELoss : Call LossFn
| Criterion (l : LossFn) (input target : Tensor) : Call Tensor
(* filesystem and torchvision.utils *)
| Makedirs (path : string) (exist_ok : bool) : Call unit
| SaveImage (t : Tensor) (path : string) (nrow : nat) (normalize : bool) : Call unit
| ImRead (path : string) : Call Image
(* matplotlib *)
| PltFigure (width height : nat) : Call Figure
| AddSubplot (fig : Figure) (pos : nat) : Call Axes
| AxClear (ax : Axes) : Call unit
| AxPlot (ax : Axes) (xs : list nat) (ys : list float) : Call unit
| AxSetTitle (ax : Axes) (title : string) : Call unit
| AxImshow (ax : Axes) (img : Image) : Call unit
| AxSetXticks (ax : Axes) (ticks : list nat) : Call unit
| AxSetYticks (ax : Axes) (ticks : list nat) : Call unit
| PltPlot (ys : list float) (label : string) : Call unit
| PltTitle (title : string) : Call unit
| PltLegend : Call unit
| PltShow : Call unit.

(** ** Programs *)

Inductive Prog (A : Type) : Type :=
| Ret (a : A)
| Raise (e : Exn)
| Vis (X : Type) (c : Call X) (k : X -> Prog A).

Arguments Ret {A} a.
Arguments Raise {A} e.
Arguments Vis {A X} c k.

Fixpoint bind {A B : Type} (p : Prog A) (f : A -> Prog B) : Prog B :=
  match p with
  | Ret a => f a
  | Raise e => Raise e
  | Vis c k => Vis c (fun x => bind (k x) f)
  end.

Definition call {X : Type} (c : Call X) : Prog X := Vis c Ret.

(** [for a in l: s = body(a, s)] *)
Fixpoint for_each {A S : Type} (l : list A) (body : A -> S -> Prog S) (s : S)
  : Prog S :=
  match l with
  | [] => Ret s
  | a :: l' => bind (body a s) (for_each l' body)
  end.

(** ** Running a program *)

Inductive Outcome (A : Type) : Type :=
| Done (a : A)
| Raised (e : Exn).

Arguments Done {A} a.
Arguments Raised {A} e.

(** A call together with what came back from it. *)
Inductive Event : Type :=
| Ev (X : Type) (c : Call X) (r : Exn + X).

Arguments Ev {X} c r.

Definition Trace := list Event.

Section Run.
Variable W : Type.

(** The world answers a call with a value or an exception, and moves
    on. *)
Definition Handler := forall X : Type, Call X -> W -> (Exn + X) * W.

Variable h : Handler.

Fixpoint run {A : Type} (p : Prog A) (w : W) : Trace * Outcome A * W :=
  match p with
  | Ret a => ([], Done a, w)
  | Raise e => ([], Raised e, w)
  | Vis c k =>
      match h c w with
      | (inl e, w') => ([Ev c (inl e)], Raised e, w')
      | (inr x, w') =>
          let '(tr, o, w'') := run (k x) w' in
          (Ev c (inr x) :: tr, o, w'')
      end
  end.

End Run.

(** The parts of what [run] returns. *)
Definition trace_of {A W : Type} (r : Trace * Outcome A * W) : Trace :=
  fst (fst r).

Definition outcome_of {A W : Type} (r : Trace * Outcome A * W) : Outcome A :=
  snd (fst r).

Definition world_of {A W : Type} (r : Trace * Outcome A * W) : W := snd r.

End Calls.

Arguments Ret {_ A} a.
Arguments Raise {_ A} e.
Arguments Vis {_ A X} c k.
Arguments Done {A} a.
Arguments Raised {A} e.
Arguments Ev {_ X} c r.

Declare Scope prog_scope.
Delimit Scope prog_scope with prog.
Notation "x <- p ;; q" := (bind p (fun x => q))
  (at level 100, p at next level, right associativity) : prog_scope.
Notation "p ;;; q" := (bind p (fun _ => q))
  (at level 100, right associativity) : prog_scope.
Open Scope prog_scope.

(** ** The notebook's functions *)

(** [model_loss = {'generator': [], 'discriminator': []}]: a dict with two
    fixed keys, each holding a list of floats. *)
Record ModelLoss : Type := {
  generator_losses : list float;      (* model_loss['generator'] *)
  discriminator_losses : list float   (* model_loss['discriminator'] *)
}.

(** [loss_dict.items()], in insertion order. *)
Definition items (m : ModelLoss) : list (string * list float) :=
  [("generator"%string, generator_losses m);
   ("discriminator"%string, discriminator_losses m)].

(** [model_loss['generator'].append(x)] and its sibling. *)
Definition append_generator (m : ModelLoss) (x : float) : ModelLoss :=
  {| generator_losses := generator_losses m ++ [x];
     discriminator_losses := discriminator_losses m |}.

Definition append_discriminator (m : ModelLoss) (x : float) : ModelLoss :=
  {| generator_losses := generator_losses m;
     discriminator_losses := discriminator_losses m ++ [x] |}.

(** ["results/%d.png" % epoch_n] *)
Definition decimal (n : nat) : string := NilEmpty.string_of_uint (Nat.to_uint n).

Definition result_path (epoch_n : nat) : string :=
  ("results/" ++ decimal epoch_n ++ ".png")%string.

(** The float literals of the notebook. *)
Definition lit_0_0 : float := PyFloat.zero.
Definition lit_1_0 : float := Eval cbv in PyFloat.of_Z 1.
Definition lit_0_5 : float :=
  Eval cbv in PyFloat.div (PyFloat.of_Z 5) (PyFloat.of_Z 10).
Definition lit_0_0002 : float :=
  Eval cbv in PyFloat.div (PyFloat.of_Z 2) (PyFloat.of_Z 10000).

Section Notebook.
Context `{Framework}.

(** [x / n] with a float (or the int 0) on the left and an int on the
    right: Python raises before dividing by zero. *)
Definition truediv (x : float) (n : nat) : Prog float :=
  if Nat.eqb n 0 then Raise ZeroDivisionError
  else Ret (PyFloat.div x (PyFloat.of_nat n)).

Definition get_dataloader (batch_size : nat) (img_shape : list nat)
  : Prog DataLoader :=
  let img_size := tl img_shape in
  dataset <- call (MNIST "./data/MNIST" true true
                     [Resize img_size; ToTensor;
                      Normalize [lit_0_5] [lit_0_5]]) ;;
  call (NewDataLoader dataset batch_size true).

Definition get_generator_model (num_classes : nat) (img_shape : list nat)
    (latent_dim : nat) (lr : float) (device : Device) : Prog (Net * Optim) :=
  generator <- call (NewGenerator num_classes img_shape latent_dim) ;;
  optimizer <- call (Adam generator lr) ;;
  generator' <- call (NetTo generator device) ;;
  Ret (generator', optimizer).

Definition get_discriminator_model (num_classes : nat) (img_shape : list nat)
    (lr : float) (device : Device) : Prog (Net * Optim) :=
  discriminator <- call (NewDiscriminator num_classes img_shape) ;;
  optimizer <- call (Adam discriminator lr) ;;
  discriminator' <- call (NetTo discriminator device) ;;
  Ret (discriminator', optimizer).

Definition get_adversarial_loss : Prog LossFn := call BCEWithLogitsLoss.

(** [[num for _ in range(n_row) for num in range(n_row)]] *)
Definition grid_labels (n_row : nat) : list nat :=
  flat_map (fun _ => seq 0 n_row) (seq 0 n_row).

Definition save_reconstruction (generator : Net) (generator_latent_dim : nat)
    (n_row : nat) (epoch_n : nat) (device : Device) : Prog Image :=
  call (Makedirs "results" true) ;;;
  a <- call (NpRandomNormal 0 1 (n_row ^ 2) generator_latent_dim) ;;
  z <- call (FloatTensor a) ;;
  z <- call (To z device) ;;
  labels <- call (NpArray (grid_labels n_row)) ;;
  labels <- call (LongTensor labels) ;;
  labels <- call (To labels device) ;;
  gen_imgs <- call (Forward generator z labels) ;;
  d <- call (Data gen_imgs) ;;
  call (SaveImage d (result_path epoch_n) n_row true) ;;;
  call (ImRead (result_path epoch_n)).

Definition init_figure : Prog (Figure * (Axes * Axes * Axes)) :=
  fig <- call (PltFigure 10 12) ;;
  ax1 <- call (AddSubplot fig 221) ;;
  ax2 <- call (AddSubplot fig 222) ;;
  ax3 <- call (AddSubplot fig 212) ;;
  Ret (fig, (ax1, ax2, ax3)).

Definition plot_current_results (image : Image) (model_loss : ModelLoss)
    (fig : Figure) (axes : Axes * Axes * Axes) : Prog unit :=
  let '(ax1, ax2, ax3) := axes in
  call (AxClear ax1) ;;;
  call (AxClear ax2) ;;;
  call (AxClear ax3) ;;;
  let epochs := seq 1 (length (generator_losses model_loss)) in
  call (AxPlot ax1 epochs (generator_losses model_loss)) ;;;
  call (AxSetTitle ax1 "Generator Loss") ;;;
  call (AxPlot ax2 epochs (discriminator_losses model_loss)) ;;;
  call (AxSetTitle ax2 "Discriminator Loss") ;;;
  call (AxImshow ax3 image) ;;;
  call (AxSetXticks ax3 []) ;;;
  call (AxSetYticks ax3 []) ;;;
  call PltShow.

Definition plot_loss (loss_dict : list (string * list float)) : Prog unit :=
  for_each loss_dict
    (fun item _ => call (PltPlot (snd item) (fst item))) tt ;;;
  call (PltTitle "Loss plot") ;;;
  call PltLegend ;;;
  call PltShow.

(** The arguments of [train_model] that stay fixed during a run. *)
Record TrainArgs : Type := {
  epochs : nat;
  dataloader : DataLoader;
  generator : Net;
  optimizer_G : Optim;
  discriminator : Net;
  optimizer_D : Optim;
  adv_loss : LossFn;
  generator_latent_dim : nat;
  n_classes : nat;
  device : Device
}.

Variable a : TrainArgs.

(** [z], [gen_y]: the noise and the labels sampled for one forward pass
    of the generator. *)
Definition sample_noise (batch_size : nat) : Prog Tensor :=
  arr <- call (NpRandomNormal 0 1 batch_size (generator_latent_dim a)) ;;
  t <- call (FloatTensor arr) ;;
  call (To t (device a)).

Definition sample_labels (batch_size : nat) : Prog Tensor :=
  arr <- call (NpRandomRandint 0 (n_classes a) batch_size) ;;
  t <- call (LongTensor arr) ;;
  call (To t (device a)).

(** [torch.FloatTensor(batch_size, 1).fill_(v).to(device)] *)
Definition constant_column (batch_size : nat) (v : float) : Prog Tensor :=
  t <- call (FloatTensorNew batch_size 1) ;;
  t <- call (Fill t v) ;;
  call (To t (device a)).

(** The part of the loop body under the banner "Train discriminator";
    it hands [d_loss] on. *)
Definition train_discriminator (x y valid fake : Tensor) (batch_size : nat)
  : Prog Tensor :=
  call (ZeroGrad (optimizer_D a)) ;;;
  z <- sample_noise batch_size ;;
  gen_y <- sample_labels batch_size ;;
  gen_x <- call (Forward (generator a) z gen_y) ;;
  gen_x_detached <- call (Detach gen_x) ;;
  validity_fake <- call (Forward (discriminator a) gen_x_detached gen_y) ;;
  validity_real <- call (Forward (discriminator a) x y) ;;
  d_real_loss <- call (Criterion (adv_loss a) validity_real valid) ;;
  d_fake_loss <- call (Criterion (adv_loss a) validity_fake fake) ;;
  s <- call (Add d_real_loss d_fake_loss) ;;
  d_loss <- call (DivInt s 2) ;;
  call (Backward d_loss) ;;;
  call (Step (optimizer_D a)) ;;;
  Ret d_loss.

(** The part under the banner "Train generator"; it hands [g_loss] on. *)
Definition train_generator (valid : Tensor) (batch_size : nat) : Prog Tensor :=
  call (ZeroGrad (optimizer_G a)) ;;;
  z <- sample_noise batch_size ;;
  gen_y <- sample_labels batch_size ;;
  gen_x <- call (Forward (generator a) z gen_y) ;;
  validity <- call (Forward (discriminator a) gen_x gen_y) ;;
  g_loss <- call (Criterion (adv_loss a) validity valid) ;;
  call (Backward g_loss) ;;;
  call (Step (optimizer_G a)) ;;;
  Ret g_loss.

(** The body of [for x, y in dataloader]; the state is the pair
    [(running_g_loss, running_d_loss)]. *)
Definition train_batch (xy : Tensor * Tensor) (running : float * float)
  : Prog (float * float) :=
  let '(running_g_loss, running_d_loss) := running in
  x <- call (To (fst xy) (device a)) ;;
  y <- call (To (snd xy) (device a)) ;;
  batch_size <- call (Shape0 x) ;;
  valid <- constant_column batch_size lit_1_0 ;;
  fake <- constant_column batch_size lit_0_0 ;;
  d_loss <- train_discriminator x y valid fake batch_size ;;
  g_loss <- train_generator valid batch_size ;;
  g <- call (Item g_loss) ;;
  let running_g_loss := PyFloat.add running_g_loss g in
  d <- call (Item d_loss) ;;
  let running_d_loss := PyFloat.add running_d_loss d in
  Ret (running_g_loss, running_d_loss).

(** The body of [for epoch in range(epochs)]; the state is
    [model_loss]. *)
Definition train_epoch (epoch : nat) (model_loss : ModelLoss)
  : Prog ModelLoss :=
  call (Print (EpochHeader epoch (Z.of_nat (epochs a) - 1))) ;;;
  call (Print (Dashes 10)) ;;;
  batches <- call (Iterate (dataloader a)) ;;
  running <- for_each batches train_batch (PyFloat.zero, PyFloat.zero) ;;
  n <- call (Len (dataloader a)) ;;
  epoch_g_loss <- truediv (fst running) n ;;
  n <- call (Len (dataloader a)) ;;
  epoch_d_loss <- truediv (snd running) n ;;
  call (Print (LossLine epoch_g_loss epoch_d_loss)) ;;;
  let model_loss := append_generator model_loss epoch_g_loss in
  let model_loss := append_discriminator model_loss epoch_d_loss in
  if Nat.eqb (epoch mod 1) 0 then
    call (SetEval (generator a)) ;;;
    image <- save_reconstruction (generator a) (generator_latent_dim a)
               (n_classes a) epoch (device a) ;;
    fig_axs <- init_figure ;;
    plot_current_results image model_loss (fst fig_axs) (snd fig_axs) ;;;
    call (SetTrain (generator a)) ;;;
    Ret model_loss
  else Ret model_loss.

(** The epoch loop, from a given history. *)
Definition train_epochs (model_loss : ModelLoss) : Prog ModelLoss :=
  for_each (seq 0 (epochs a)) train_epoch model_loss.

Definition train_model : Prog unit :=
  let model_loss := {| generator_losses := []; discriminator_losses := [] |} in
  model_loss <- train_epochs model_loss ;;
  plot_loss (items model_loss).

End Notebook.

(** ** What a trace shows *)

Section Observations.
Context `{Framework}.

(** The exception of a call that raised. *)
Definition raised_by (ev : Event) : option Exn :=
  match ev with
  | Ev _ (inl e) => Some e
  | Ev _ (inr _) => None
  end.

Definition returned (ev : Event) : Prop := raised_by ev = None.

(** The optimizers whose [step()] was performed, in order. *)
Definition updates_of (ev : Event) : list Optim :=
  match ev with
  | Ev (Step o) (inr _) => [o]
  | _ => []
  end.

Definition updates (tr : Trace) : list Optim := flat_map updates_of tr.

(** The batches handed out by the dataloader, in order. *)
Definition batches_of (ev : Event) : list (Tensor * Tensor) :=
  match ev with
  | Ev (Iterate _) (inr bs) => bs
  | _ => []
  end.

Definition batches_drawn (tr : Trace) : list (Tensor * Tensor) :=
  flat_map batches_of tr.

(** What is asked of the filesystem for writing. *)
Inductive FsWrite : Type :=
| MkDirs (path : string) (exist_ok : bool)
| WriteImage (path : string).

Definition fs_writes_of (ev : Event) : list FsWrite :=
  match ev with
  | Ev (Makedirs p ok) _ => [MkDirs p ok]
  | Ev (SaveImage _ p _ _) _ => [WriteImage p]
  | _ => []
  end.

Definition fs_writes (tr : Trace) : list FsWrite := flat_map fs_writes_of tr.

(** The calls that compute or read a loss. *)
Definition is_loss_call (ev : Event) : bool :=
  match ev with
  | Ev (Criterion _ _ _) _ | Ev (Add _ _) _ | Ev (DivInt _ _) _
  | Ev (Item _) _ => true
  | _ => false
  end.

Definition loss_calls (tr : Trace) : Trace := List.filter is_loss_call tr.

(** The values [.item()] returned. *)
Definition item_of (ev : Event) : list float :=
  match ev with
  | Ev (Item _) (inr v) => [v]
  | _ => []
  end.

Definition item_values (tr : Trace) : list float := flat_map item_of tr.

(** The tensors [backward()] was called on. *)
Definition backward_of (ev : Event) : list Tensor :=
  match ev with
  | Ev (Backward t) _ => [t]
  | _ => []
  end.

Definition backward_calls (tr : Trace) : list Tensor := flat_map backward_of tr.

(** The answers of [len(dataloader)]. *)
Definition len_of (ev : Event) : list nat :=
  match ev with
  | Ev (Len _) (inr n) => [n]
  | _ => []
  end.

Definition len_values (tr : Trace) : list nat := flat_map len_of tr.

(** The loss computations of one batch, as [train_batch] orders them:
    the tensors involved and the two Python floats read at the end. *)
Record BatchLosses : Type := {
  validity_real : Tensor;
  validity_fake : Tensor;
  validity : Tensor;
  valid : Tensor;
  fake : Tensor;
  d_real_loss : Tensor;
  d_fake_loss : Tensor;
  d_sum : Tensor;        (* d_real_loss + d_fake_loss *)
  d_loss : Tensor;       (* (d_real_loss + d_fake_loss) / 2 *)
  g_loss : Tensor;
  g_item : float;        (* g_loss.item() *)
  d_item : float         (* d_loss.item() *)
}.

Definition batch_loss_calls (criterion : LossFn) (b : BatchLosses) : Trace :=
  [ Ev (Criterion criterion (validity_real b) (valid b)) (inr (d_real_loss b));
    Ev (Criterion criterion (validity_fake b) (fake b)) (inr (d_fake_loss b));
    Ev (Add (d_real_loss b) (d_fake_loss b)) (inr (d_sum b));
    Ev (DivInt (d_sum b) 2) (inr (d_loss b));
    Ev (Criterion criterion (validity b) (valid b)) (inr (g_loss b));
    Ev (Item (g_loss b)) (inr (g_item b));
    Ev (Item (d_loss b)) (inr (d_item b)) ].

(** [n] rounds of discriminator-then-generator. *)
Definition rounds (d g : Optim) (n : nat) : list Optim :=
  concat (repeat [d; g] n).

(** One pass over the dataloader: the batches it handed out, the loss
    computations of each, and the two answers of [len(dataloader)]. *)
Record EpochRun : Type := {
  batches : list (Tensor * Tensor);
  losses : list BatchLosses;
  len_g : nat;
  len_d : nat
}.

(** [running_g_loss / len(dataloader)] and [running_d_loss / len(dataloader)]
    written out: the sum is the left fold the loop performs, from [0]. *)
Definition epoch_g_loss (e : EpochRun) : float :=
  PyFloat.div (PyFloat.sum_from PyFloat.zero (List.map g_item (losses e)))
    (PyFloat.of_nat (len_g e)).

Definition epoch_d_loss (e : EpochRun) : float :=
  PyFloat.div (PyFloat.sum_from PyFloat.zero (List.map d_item (losses e)))
    (PyFloat.of_nat (len_d e)).

(** The transitions of a run: the world before a call, the call with its
    answer, the world after. *)
Section Transitions.
Variable W : Type.
Variable h : Handler W.

Fixpoint transitions {A : Type} (p : Prog A) (w : W)
  : list (W * Event * W) :=
  match p with
  | Ret _ | Raise _ => []
  | Vis c k =>
      match h c w with
      | (inl e, w') => [(w, Ev c (inl e), w')]
      | (inr x, w') => (w, Ev c (inr x), w') :: transitions (k x) w'
      end
  end.
End Transitions.

End Observations.

(** ** PyTorch's bookkeeping of parameters and gradients *)

Module Torch.

(** The two networks of the notebook.  An optimizer is named by the
    network whose [parameters()] it was built over. *)
Inductive NetId : Type := Gen | Disc.

Definition NetId_eqb (m n : NetId) : bool :=
  match m, n with
  | Gen, Gen | Disc, Disc => true
  | _, _ => false
  end.

Definition upd {A : Type} (f : NetId -> A) (n : NetId) (v : A) : NetId -> A :=
  fun m => if NetId_eqb m n then v else f m.

Section Model.
(** What the kernels compute is left open: the contents of tensors,
    parameters, gradients and optimizer state, and the rest of the
    world (random generators, disk, screen). *)
Variables Payload Arr Params Grads OptState Loss Ds Dl Img Fig Ax Env : Type.

(** A tensor: its contents and, for each network, whether its autograd
    graph reaches that network's parameters. *)
Record TTensor : Type := {
  payload : Payload;
  reach_gen : bool;
  reach_disc : bool
}.

Definition reaches (t : TTensor) (n : NetId) : bool :=
  match n with Gen => reach_gen t | Disc => reach_disc t end.

(** [t.detach()], [t.data], and every tensor built from numbers. *)
Definition no_graph (t : TTensor) : TTensor :=
  {| payload := payload t; reach_gen := false; reach_disc := false |}.

(** The result of a differentiable operation on [args]. *)
Definition graph_of (args : list TTensor) (t : TTensor) : TTensor :=
  {| payload := payload t;
     reach_gen := existsb reach_gen args;
     reach_disc := existsb reach_disc args |}.

(** The output of [m(input, labels)]: its graph reaches the parameters
    of [m] and whatever the inputs reach. *)
Definition output_of (m : NetId) (args : list TTensor) (t : TTensor) : TTensor :=
  {| payload := payload t;
     reach_gen := NetId_eqb m Gen || existsb reach_gen args;
     reach_disc := NetId_eqb m Disc || existsb reach_disc args |}.

Definition torch_framework : Framework :=
  {| Tensor := TTensor; Array := Arr; Net := NetId; Optim := NetId;
     LossFn := Loss; Dataset := Ds; DataLoader := Dl; Image := Img;
     Figure := Fig; Axes := Ax |}.

#[local] Existing Instance torch_framework.

Record World : Type := {
  params : NetId -> Params;        (* the values of m.parameters() *)
  grads : NetId -> Grads;          (* their .grad *)
  opt_state : NetId -> OptState;   (* Adam's moments and step count *)
  training : NetId -> bool;        (* m.training *)
  env : Env
}.

Definition with_env (w : World) (e : Env) : World :=
  {| params := params w; grads := grads w; opt_state := opt_state w;
     training := training w; env := e |}.

(** The numbers: what each call answers, given the world it runs in. *)
Variable oracle : forall X : Type, Call X -> World -> (Exn + X) * Env.
Variable zero_grads : Grads -> Grads.
Variable gradient : NetId -> TTensor -> World -> Grads.
Variable accumulate : Grads -> Grads -> Grads.
Variable adam_step : OptState -> Params -> Grads -> Params * OptState.

(** The graph a call's result carries, and the handles it returns. *)
Definition result {X : Type} (c : Call X) : X -> X :=
  match c in Call X return X -> X with
  | Iterate _ =>
      List.map (fun xy => (no_graph (fst xy), no_graph (snd xy)))
  | To t _ => graph_of [t]
  | FloatTensorNew _ _ => no_graph
  | Fill t _ => graph_of [t]
  | FloatTensor _ => no_graph
  | LongTensor _ => no_graph
  | Detach _ => no_graph
  | Data _ => no_graph
  | Add a b => graph_of [a; b]
  | DivInt a _ => graph_of [a]
  | Forward m input labels => output_of m [input; labels]
  | Criterion _ input target => graph_of [input; target]
  | NewGenerator _ _ _ => fun _ => Gen
  | NewDiscriminator _ _ => fun _ => Disc
  | NetTo m _ => fun _ => m
  | Adam m _ => fun _ => m
  | _ => fun x => x
  end.

(** What a call that returned has done to parameters, gradients,
    optimizer state and modes. *)
Definition effect {X : Type} (c : Call X) (w : World) : World :=
  match c with
  | Backward t =>
      {| params := params w;
         grads := fun n =>
           if reaches t n then accumulate (grads w n) (gradient n t w)
           else grads w n;
         opt_state := opt_state w; training := training w; env := env w |}
  | ZeroGrad o =>
      {| params := params w;
         grads := upd (grads w) o (zero_grads (grads w o));
         opt_state := opt_state w; training := training w; env := env w |}
  | Step o =>
      let ps := adam_step (opt_state w o) (params w o) (grads w o) in
      {| params := upd (params w) o (fst ps);
         grads := grads w;
         opt_state := upd (opt_state w) o (snd ps);
         training := training w; env := env w |}
  | SetEval m =>
      {| params := params w; grads := grads w; opt_state := opt_state w;
         training := upd (training w) m false; env := env w |}
  | SetTrain m =>
      {| params := params w; grads := grads w; opt_state := opt_state w;
         training := upd (training w) m true; env := env w |}
  | _ => w
  end.

(** [backward()] on a tensor without a graph raises. *)
Definition refused {X : Type} (c : Call X) : option Exn :=
  match c with
  | Backward t =>
      if reach_gen t || reach_disc t then None
      else Some (Failure "element 0 of tensors does not require grad")
  | _ => None
  end.

(** The calls that leave the generator's parameters and gradients alone,
    and those that leave the discriminator's parameters alone. *)
Definition spares_generator {X : Type} (c : Call X) : Prop :=
  match c with
  | Step o | ZeroGrad o => o = Disc
  | Backward t => reach_gen t = false
  | _ => True
  end.

Definition spares_discriminator {X : Type} (c : Call X) : Prop :=
  match c with
  | Step o => o = Gen
  | _ => True
  end.

(** A pair [(d_loss, g_loss)] as one batch should differentiate them:
    the graph of the first stops short of the generator, the graph of the
    second runs through the discriminator into the generator. *)
Definition cut_then_through (p : TTensor * TTensor) : Prop :=
  reach_gen (fst p) = false /\ reach_disc (fst p) = true /\
  reach_gen (snd p) = true /\ reach_disc (snd p) = true.

(** Tensors that carry no graph into the generator. *)
Definition plain_batch (xy : TTensor * TTensor) : Prop :=
  reach_gen (fst xy) = false /\ reach_gen (snd xy) = false.

(** The calls of [backward()] in a trace come in pairs, each time on a
    loss cut off from the generator and then on one that runs through the
    discriminator into the generator. *)
Definition Paired (tr : Trace) : Prop :=
  exists ps : list (TTensor * TTensor),
    backward_calls tr = flat_map (fun p => [fst p; snd p]) ps /\
    Forall cut_then_through ps.

Definition handler : Handler World :=
  fun X c w =>
    match refused c with
    | Some e => (inl e, w)
    | None =>
        let '(r, env') := oracle c w in
        match r with
        | inl e => (inl e, with_env w env')
        | inr x => (inr (result c x), effect c (with_env w env'))
        end
    end.

(** The arguments of [train_model] in this world. *)
Definition args (epochs : nat) (dataloader : Dl) (adv_loss : Loss)
    (generator_latent_dim n_classes : nat) (device : Device) : TrainArgs :=
  {| epochs := epochs; dataloader := dataloader;
     generator := Gen; optimizer_G := Gen;
     discriminator := Disc; optimizer_D := Disc;
     adv_loss := adv_loss;
     generator_latent_dim := generator_latent_dim;
     n_classes := n_classes; device := device |}.

End Model.

End Torch.

(** ** The notebook's cells *)

Module Cells.

(** The values the two configuration dicts hold. *)
Inductive PyVal : Type :=
| PyInt (n : nat)
| PyFloatV (x : float)
| PyTuple (xs : list nat).

Definition TRAIN_PARAMETERS_0 : gmap string PyVal :=
  <[ "batch_size"%string := PyInt 128 ]>
  (<[ "num_classes"%string := PyInt 10 ]>
  (<[ "img_shape"%string := PyTuple [1; 28; 28] ]>
  (<[ "epochs"%string := PyInt 200 ]>
  (<[ "learning_rate"%string := PyFloatV lit_0_0002 ]> ∅)))).

Definition MODEL_HYPERPARAMETERS_0 : gmap string PyVal :=
  <[ "generator_latent_dim"%string := PyInt 100 ]> ∅.

Section WithFramework.
Context `{Framework}.

(** The global names of the kernel; [None] is a name not yet bound. *)
Record Globals : Type := {
  TRAIN_PARAMETERS : option (gmap string PyVal);
  MODEL_HYPERPARAMETERS : option (gmap string PyVal);
  DEVICE : option Device;
  dataloader : option DataLoader;
  generator : option Net;
  optimizer_G : option Optim;
  discriminator : option Net;
  optimizer_D : option Optim;
  adversarial_loss : option LossFn
}.

Definition fresh : Globals :=
  {| TRAIN_PARAMETERS := None; MODEL_HYPERPARAMETERS := None;
     DEVICE := None; dataloader := None; generator := None;
     optimizer_G := None; discriminator := None; optimizer_D := None;
     adversarial_loss := None |}.

(** Reading a global name. *)
Definition name {A : Type} (n : string) (v : option A) : Prog A :=
  match v with
  | Some x => Ret x
  | None => Raise (NameError n)
  end.

(** [d[key]] and the types the callees expect of the entries. *)
Definition subscript (d : gmap string PyVal) (key : string) : Prog PyVal :=
  match d !! key with
  | Some v => Ret v
  | None => Raise (KeyError key)
  end.

Definition int_entry (d : gmap string PyVal) (key : string) : Prog nat :=
  v <- subscript d key ;;
  match v with
  | PyInt n => Ret n
  | _ => Raise (TypeError key)
  end.

Definition float_entry (d : gmap string PyVal) (key : string) : Prog float :=
  v <- subscript d key ;;
  match v with
  | PyFloatV x => Ret x
  | _ => Raise (TypeError key)
  end.

Definition tuple_entry (d : gmap string PyVal) (key : string)
  : Prog (list nat) :=
  v <- subscript d key ;;
  match v with
  | PyTuple xs => Ret xs
  | _ => Raise (TypeError key)
  end.

(** [!nvidia-smi] *)
Definition cell_2 (g : Globals) : Prog Globals :=
  call (Shell "nvidia-smi") ;;;
  Ret g.

(** The imports, the seed and the cuDNN switches. *)
Definition cell_3 (g : Globals) : Prog Globals :=
  call (ManualSeed 0) ;;;
  call (SetCudnnDeterministic true) ;;;
  call (SetCudnnBenchmark false) ;;;
  Ret g.

(** Global variable declaration. *)
Definition cell_5 (g : Globals) : Prog Globals :=
  cuda <- call CudaIsAvailable ;;
  Ret {| TRAIN_PARAMETERS := Some TRAIN_PARAMETERS_0;
         MODEL_HYPERPARAMETERS := Some MODEL_HYPERPARAMETERS_0;
         DEVICE := Some (if cuda : bool then "cuda" else "cpu")%string;
         dataloader := dataloader g; generator := generator g;
         optimizer_G := optimizer_G g; discriminator := discriminator g;
         optimizer_D := optimizer_D g;
         adversarial_loss := adversarial_loss g |}.

(** [dataloader = get_dataloader(...)] *)
Definition cell_8 (g : Globals) : Prog Globals :=
  tp <- name "TRAIN_PARAMETERS" (TRAIN_PARAMETERS g) ;;
  batch_size <- int_entry tp "batch_size" ;;
  tp <- name "TRAIN_PARAMETERS" (TRAIN_PARAMETERS g) ;;
  img_shape <- tuple_entry tp "img_shape" ;;
  dl <- get_dataloader batch_size img_shape ;;
  Ret {| TRAIN_PARAMETERS := TRAIN_PARAMETERS g;
         MODEL_HYPERPARAMETERS := MODEL_HYPERPARAMETERS g;
         DEVICE := DEVICE g;
         dataloader := Some dl; generator := generator g;
         optimizer_G := optimizer_G g; discriminator := discriminator g;
         optimizer_D := optimizer_D g;
         adversarial_loss := adversarial_loss g |}.

(** [generator, optimizer_G = ...; discriminator, optimizer_D = ...] *)
Definition cell_18 (g : Globals) : Prog Globals :=
  tp <- name "TRAIN_PARAMETERS" (TRAIN_PARAMETERS g) ;;
  num_classes <- int_entry tp "num_classes" ;;
  img_shape <- tuple_entry tp "img_shape" ;;
  mh <- name "MODEL_HYPERPARAMETERS" (MODEL_HYPERPARAMETERS g) ;;
  latent_dim <- int_entry mh "generator_latent_dim" ;;
  lr <- float_entry tp "learning_rate" ;;
  dev <- name "DEVICE" (DEVICE g) ;;
  gen <- get_generator_model num_classes img_shape latent_dim lr dev ;;
  let g1 :=
    {| TRAIN_PARAMETERS := TRAIN_PARAMETERS g;
       MODEL_HYPERPARAMETERS := MODEL_HYPERPARAMETERS g;
       DEVICE := DEVICE g;
       dataloader := dataloader g; generator := Some (fst gen);
       optimizer_G := Some (snd gen); discriminator := discriminator g;
       optimizer_D := optimizer_D g;
       adversarial_loss := adversarial_loss g |} in
  tp <- name "TRAIN_PARAMETERS" (TRAIN_PARAMETERS g1) ;;
  num_classes <- int_entry tp "num_classes" ;;
  img_shape <- tuple_entry tp "img_shape" ;;
  lr <- float_entry tp "learning_rate" ;;
  dev <- name "DEVICE" (DEVICE g1) ;;
  disc <- get_discriminator_model num_classes img_shape lr dev ;;
  Ret {| TRAIN_PARAMETERS := TRAIN_PARAMETERS g1;
         MODEL_HYPERPARAMETERS := MODEL_HYPERPARAMETERS g1;
         DEVICE := DEVICE g1;
         dataloader := dataloader g1; generator := generator g1;
         optimizer_G := optimizer_G g1; discriminator := Some (fst disc);
         optimizer_D := Some (snd disc);
         adversarial_loss := adversarial_loss g1 |}.

(** [adversarial_loss = get_adversarial_loss()] *)
Definition set_adversarial_loss (g : Globals) (l : LossFn) : Globals :=
  {| TRAIN_PARAMETERS := TRAIN_PARAMETERS g;
     MODEL_HYPERPARAMETERS := MODEL_HYPERPARAMETERS g;
     DEVICE := DEVICE g;
     dataloader := dataloader g; generator := generator g;
     optimizer_G := optimizer_G g; discriminator := discriminator g;
     optimizer_D := optimizer_D g;
     adversarial_loss := Some l |}.

Definition cell_20 (g : Globals) : Prog Globals :=
  l <- get_adversarial_loss ;;
  Ret (set_adversarial_loss g l).

(** The call [train_model(TRAIN_PARAMETERS['epochs'], dataloader, ...)]:
    the arguments are evaluated left to right, then the function runs. *)
Definition call_train_model (g : Globals) : Prog unit :=
  tp <- name "TRAIN_PARAMETERS" (TRAIN_PARAMETERS g) ;;
  n_epochs <- int_entry tp "epochs" ;;
  dl <- name "dataloader" (dataloader g) ;;
  gen <- name "generator" (generator g) ;;
  opt_g <- name "optimizer_G" (optimizer_G g) ;;
  disc <- name "discriminator" (discriminator g) ;;
  opt_d <- name "optimizer_D" (optimizer_D g) ;;
  loss <- name "adversarial_loss" (adversarial_loss g) ;;
  mh <- name "MODEL_HYPERPARAMETERS" (MODEL_HYPERPARAMETERS g) ;;
  latent_dim <- int_entry mh "generator_latent_dim" ;;
  tp <- name "TRAIN_PARAMETERS" (TRAIN_PARAMETERS g) ;;
  num_classes <- int_entry tp "num_classes" ;;
  dev <- name "DEVICE" (DEVICE g) ;;
  train_model
    (Build_TrainArgs n_epochs dl gen opt_g disc opt_d loss latent_dim
       num_classes dev).

Definition cell_26 (g : Globals) : Prog Globals :=
  call_train_model g ;;;
  Ret g.

(** The LSGAN exercise: the criterion is replaced, training runs again. *)
Definition cell_29 (g : Globals) : Prog Globals :=
  l <- call MSELoss ;;
  let g := set_adversarial_loss g l in
  call_train_model g ;;;
  Ret g.

(** The code cells, top to bottom. *)
Definition cells : list (Globals -> Prog Globals) :=
  [cell_2; cell_3; cell_5; cell_8; cell_18; cell_20; cell_26; cell_29].

(** Running cells one after the other. *)
Definition run_cells (cs : list (Globals -> Prog Globals)) (g : Globals)
  : Prog Globals :=
  for_each cs (fun cell g => cell g) g.

End WithFramework.

End Cells.

(** ** The generator network *)

Module GeneratorNet.

Local Open Scope R_scope.


(** A tensor of any rank: its shape and its entries in row-major order. *)
Record Tensor : Type := {
  shape : list nat;
  data : list R
}.























End GeneratorNet.

(** ** A small world to run the programs in *)

Module Toy.

Section Answers.
Context `{Framework}.

(** One object of each kind, the batches of a pass, what
    [len(dataloader)] says, and the float every [.item()] reads. *)
Variable tensor : Tensor.
Variable array : Array.
Variable net : Net.
Variable optim : Optim.
Variable loss_fn : LossFn.
Variable dataset : Dataset.
Variable loader : DataLoader.
Variable image : Image.
Variable figure : Figure.
Variable axes : Axes.
Variable batches : list (Tensor * Tensor).
Variable len : nat.
Variable item : float.

Definition answer {X : Type} (c : Call X) : X :=
  match c in Call X return X with
  | Print _ | Shell _ | ManualSeed _ | SetCudnnDeterministic _
  | SetCudnnBenchmark _ => tt
  | CudaIsAvailable => false
  | MNIST _ _ _ _ => dataset
  | NewDataLoader _ _ _ => loader
  | Iterate _ => batches
  | Len _ => len
  | To t _ => t
  | Shape0 _ => 1
  | FloatTensorNew _ _ => tensor
  | Fill t _ => t
  | NpRandomNormal _ _ _ _ | NpRandomRandint _ _ _ | NpArray _ => array
  | FloatTensor _ | LongTensor _ => tensor
  | Detach t | Data t => t
  | Add x _ => x
  | DivInt x _ => x
  | Item _ => item
  | Backward _ => tt
  | NewGenerator _ _ _ | NewDiscriminator _ _ => net
  | NetTo m _ => m
  | Forward _ _ _ => tensor
  | SetEval _ | SetTrain _ => tt
  | Adam _ _ => optim
  | ZeroGrad _ | Step _ => tt
  | BCEWithLogitsLoss | MSELoss => loss_fn
  | Criterion _ _ _ => tensor
  | Makedirs _ _ | SaveImage _ _ _ _ => tt
  | ImRead _ => image
  | PltFigure _ _ => figure
  | AddSubplot _ _ => axes
  | AxClear _ | AxPlot _ _ _ | AxSetTitle _ _ | AxImshow _ _
  | AxSetXticks _ _ | AxSetYticks _ _ | PltPlot _ _ | PltTitle _
  | PltLegend | PltShow => tt
  end.

End Answers.

(** Networks and optimizers are told apart by a boolean; every other
    object is [tt]. *)
Definition framework : Framework :=
  {| Tensor := unit; Array := unit; Net := bool; Optim := bool;
     LossFn := unit; Dataset := unit; DataLoader := unit; Image := unit;
     Figure := unit; Axes := unit |}.

#[local] Existing Instance framework.

(** The world is the number of calls answered so far; with
    [fail_at = Some k] the call numbered [k] raises. *)
Definition handler (n_batches len : nat) (item : float) (fail_at : option nat)
  : Handler nat :=
  fun X c w =>
    let x := answer tt tt true true tt tt tt tt tt tt
               (repeat (tt, tt) n_batches) len item c in
    match fail_at with
    | Some k =>
        if Nat.eqb w k then (inl (Failure "collaborator"), S w)
        else (inr x, S w)
    | None => (inr x, S w)
    end.

Definition args (epochs : nat) : TrainArgs :=
  {| epochs := epochs; dataloader := tt;
     generator := true; optimizer_G := true;
     discriminator := false; optimizer_D := false;
     adv_loss := tt; generator_latent_dim := 3; n_classes := 2;
     device := "cpu"%string |}.

(** Two batches a pass and losses of 1.0: nothing goes wrong. *)
Definition quiet : Handler nat := handler 2 2 lit_1_0 None.



(** One snapshot: a grid of 2 by 2 images after epoch 7. *)
Definition snapshot : Prog Image := save_reconstruction true 3 2 7 "cpu".

(** The history [train_model] starts from. *)
Definition no_history : ModelLoss :=
  {| generator_losses := []; discriminator_losses := [] |}.

(** The same objects in the world of [Torch]: tensors without content,
    a world without surroundings. *)
Definition torch_oracle
  : forall X : Type,
      @Call (Torch.torch_framework unit unit unit unit unit unit unit unit) X ->
      Torch.World nat nat nat unit ->
      (Exn + X) * unit :=
  fun X c w =>
    (inr (@answer (Torch.torch_framework unit unit unit unit unit unit unit unit)
            {| Torch.payload := tt; Torch.reach_gen := false;
               Torch.reach_disc := false |}
            tt Torch.Gen Torch.Gen tt tt tt tt tt tt [] 1 lit_1_0 X c), tt).

(** Parameters, gradients and optimizer state are counters: a step adds
    the gradient to the parameters, backward adds one to the gradient. *)
Definition torch_handler
  : @Handler (Torch.torch_framework unit unit unit unit unit unit unit unit)
      (Torch.World nat nat nat unit) :=
  Torch.handler torch_oracle (fun _ => 0) (fun _ _ _ => 1) Nat.add
    (fun s p g => (p + g, S s)).

Definition torch_args : @TrainArgs
    (Torch.torch_framework unit unit unit unit unit unit unit unit) :=
  Torch.args unit unit unit unit unit unit 1 tt tt 3 2 "cpu"%string.

Definition torch_tensor : Torch.TTensor unit :=
  {| Torch.payload := tt; Torch.reach_gen := false;
     Torch.reach_disc := false |}.

Definition torch_world : Torch.World nat nat nat unit :=
  {| Torch.params := fun _ => 10; Torch.grads := fun _ => 0;
     Torch.opt_state := fun _ => 0; Torch.training := fun _ => true;
     Torch.env := tt |}.

End Toy.

(** * What the properties are stated with *)

Section Specifications.
Context `{Framework}.
Variable W : Type.
Variable h : Handler W.
Variable a : TrainArgs.

(** What a completed pass through the loop body shows. *)
Record BatchShows (tr : Trace) (b : BatchLosses) : Prop := {
  shows_updates : updates tr = [optimizer_D a; optimizer_G a];
  shows_fs : fs_writes tr = [];
  shows_batches : batches_drawn tr = [];
  shows_len : len_values tr = [];
  shows_losses : loss_calls tr = batch_loss_calls (adv_loss a) b;
  shows_items : item_values tr = [g_item b; d_item b]
}.

(** What a completed epoch shows. *)
Record EpochShows (epoch : nat) (tr : Trace) (e : EpochRun) : Prop := {
  epoch_batches : batches_drawn tr = batches e;
  epoch_losses_length : length (losses e) = length (batches e);
  epoch_updates :
    updates tr = rounds (optimizer_D a) (optimizer_G a) (length (batches e));
  epoch_fs :
    fs_writes tr = [MkDirs "results" true; WriteImage (result_path epoch)];
  epoch_loss_calls :
    loss_calls tr = flat_map (batch_loss_calls (adv_loss a)) (losses e);
  epoch_items :
    item_values tr = flat_map (fun b => [g_item b; d_item b]) (losses e);
  epoch_len : len_values tr = [len_g e; len_d e];
  epoch_len_g : len_g e <> 0;
  epoch_len_d : len_d e <> 0
}.

(** What a completed run of the epoch loop shows, from epoch [s] on. *)
Record EpochsShow (s : nat) (tr : Trace) (es : list EpochRun) : Prop := {
  run_batches : batches_drawn tr = flat_map batches es;
  run_updates :
    updates tr =
    flat_map (fun e => rounds (optimizer_D a) (optimizer_G a)
                         (length (batches e))) es;
  run_fs :
    fs_writes tr =
    flat_map (fun epoch => [MkDirs "results" true;
                            WriteImage (result_path epoch)])
      (seq s (length es));
  run_loss_calls :
    loss_calls tr =
    flat_map (fun e => flat_map (batch_loss_calls (adv_loss a)) (losses e)) es;
  run_items :
    item_values tr =
    flat_map (fun e => flat_map (fun b => [g_item b; d_item b]) (losses e)) es;
  run_len : len_values tr = flat_map (fun e => [len_g e; len_d e]) es;
  run_wf :
    Forall (fun e => length (losses e) = length (batches e) /\
                     len_g e <> 0 /\ len_d e <> 0) es
}.

(** Whose step comes next. *)
Inductive Phase : Type := ExpectD | ExpectG.

(** [AltRun s l s']: from phase [s], the steps [l] come in turn,
    discriminator then generator, and leave phase [s']. *)
Inductive AltRun : Phase -> list Optim -> Phase -> Prop :=
| alt_nil (s : Phase) : AltRun s [] s
| alt_d (l : list Optim) (s : Phase) :
    AltRun ExpectG l s -> AltRun ExpectD (optimizer_D a :: l) s
| alt_g (l : list Optim) (s : Phase) :
    AltRun ExpectD l s -> AltRun ExpectG (optimizer_G a :: l) s.

(** A program keeps the turn: whatever its outcome its steps come in turn
    from [s], and when it returns the phase is [s']. *)
Definition Keeps (s s' : Phase) {A : Type} (p : Prog A) : Prop :=
  forall w tr o w',
    run h p w = (tr, o, w') ->
    (exists s'', AltRun s (updates tr) s'') /\
    (forall x, o = Done x -> AltRun s (updates tr) s').

End Specifications.


Section Configuration.
Context `{Framework}.
Variable W : Type.
Variable h : Handler W.

(** What the two configuration names are bound to. *)
Definition config_of (g : Cells.Globals)
  : option (gmap string Cells.PyVal) * option (gmap string Cells.PyVal) :=
  (Cells.TRAIN_PARAMETERS g, Cells.MODEL_HYPERPARAMETERS g).

Definition initial_config
  : option (gmap string Cells.PyVal) * option (gmap string Cells.PyVal) :=
  (Some Cells.TRAIN_PARAMETERS_0, Some Cells.MODEL_HYPERPARAMETERS_0).

(** A cell leaves the configuration as it found it. *)
Definition Preserves (cell : Cells.Globals -> Prog Cells.Globals) : Prop :=
  forall g w tr g' w',
    run h (cell g) w = (tr, Done g', w') -> config_of g' = config_of g.

(** The cells other than the declaration of the globals. *)
Definition later_cells : list (Cells.Globals -> Prog Cells.Globals) :=
  [Cells.cell_2; Cells.cell_3; Cells.cell_8; Cells.cell_18; Cells.cell_20;
   Cells.cell_26; Cells.cell_29].

End Configuration.

(** * Properties *)

(** ** Trying the definitions *)

Example grid_labels_3 : grid_labels 3 = [0; 1; 2; 0; 1; 2; 0; 1; 2].
Proof. reflexivity. Qed.

Example one_plus_two :
  PyFloat.add (PyFloat.of_Z 1) (PyFloat.of_Z 2) = PyFloat.of_Z 3.
Proof. reflexivity. Qed.

Example one_half : PyFloat.div lit_1_0 (PyFloat.of_nat 2) = lit_0_5.
Proof. reflexivity. Qed.

Example nan_spreads :
  PyFloat.sum_from PyFloat.zero [lit_1_0; PyFloat.nan; lit_0_5] = PyFloat.nan.
Proof. reflexivity. Qed.

Example truediv_by_zero :
  run Toy.quiet (truediv lit_1_0 0) 0 = ([], Raised ZeroDivisionError, 0).
Proof. reflexivity. Qed.

(** A dataloader without batches: the first epoch divides by zero before
    anything is appended or saved. *)
Example empty_dataloader :
  let r := run (Toy.handler 0 0 lit_1_0 None) (train_model (Toy.args 3)) 0 in
  outcome_of r = Raised ZeroDivisionError /\
  length (trace_of r) = 4 /\
  fs_writes (trace_of r) = [].
Proof. vm_compute. auto. Qed.

(** One epoch over two batches, as the small world sees it. *)
Example one_epoch :
  let r := run Toy.quiet (train_model (Toy.args 1)) 0 in
  outcome_of r = Done tt /\
  updates (trace_of r) = [false; true; false; true] /\
  item_values (trace_of r) = [lit_1_0; lit_1_0; lit_1_0; lit_1_0] /\
  len_values (trace_of r) = [2; 2] /\
  fs_writes (trace_of r) = [MkDirs "results" true; WriteImage "results/0.png"].
Proof. vm_compute. auto 10. Qed.

(** ** Running programs *)

Section RunFacts.
Context `{Framework}.
Variable W : Type.
Variable h : Handler W.

Lemma run_bind {A B : Type} (p : Prog A) (f : A -> Prog B) (w : W) :
  run h (bind p f) w =
  match run h p w with
  | (tr, Done a, w1) =>
      let '(tr2, o, w2) := run h (f a) w1 in (tr ++ tr2, o, w2)
  | (tr, Raised e, w1) => (tr, Raised e, w1)
  end.
Proof.
  revert w; induction p as [a|e|X c k IH]; intros w; simpl.
  - destruct (run h (f a) w) as [[tr o] w2]; reflexivity.
  - reflexivity.
  - destruct (h c w) as [[e|x] w1]; [reflexivity|].
    rewrite IH.
    destruct (run h (k x) w1) as [[tr o] w2].
    destruct o as [a|e]; [|reflexivity].
    destruct (run h (f a) w2) as [[tr2 o2] w3]; reflexivity.
Qed.

Lemma run_bind_done {A B : Type} (p : Prog A) (f : A -> Prog B) w tr b w' :
  run h (bind p f) w = (tr, Done b, w') ->
  exists a tr1 w1 tr2,
    run h p w = (tr1, Done a, w1) /\
    run h (f a) w1 = (tr2, Done b, w') /\
    tr = tr1 ++ tr2.
Proof.
  rewrite run_bind.
  destruct (run h p w) as [[tr1 [a|e]] w1]; [|discriminate].
  destruct (run h (f a) w1) as [[tr2 o] w2] eqn:E.
  intros [= <- -> <-].
  exists a, tr1, w1, tr2; auto.
Qed.

Lemma run_vis_done {A X : Type} (c : Call X) (k : X -> Prog A) w tr a w' :
  run h (Vis c k) w = (tr, Done a, w') ->
  exists x w1 tr1,
    h c w = (inr x, w1) /\
    tr = Ev c (inr x) :: tr1 /\
    run h (k x) w1 = (tr1, Done a, w').
Proof.
  simpl.
  destruct (h c w) as [[e|x] w1]; [discriminate|].
  destruct (run h (k x) w1) as [[tr1 o] w2] eqn:E.
  intros [= <- -> <-].
  exists x, w1, tr1; auto.
Qed.

Lemma run_vis_inv {A X : Type} (c : Call X) (k : X -> Prog A) w tr o w' :
  run h (Vis c k) w = (tr, o, w') ->
  (exists e, h c w = (inl e, w') /\ tr = [Ev c (inl e)] /\ o = Raised e) \/
  (exists x w1 tr1,
     h c w = (inr x, w1) /\
     tr = Ev c (inr x) :: tr1 /\
     run h (k x) w1 = (tr1, o, w')).
Proof.
  simpl.
  destruct (h c w) as [[e|x] w1].
  - intros [= <- <- <-]. left; exists e; auto.
  - destruct (run h (k x) w1) as [[tr1 o1] w2] eqn:E.
    intros [= <- <- <-]. right; exists x, w1, tr1; auto.
Qed.

Lemma run_eta {A : Type} (p : Prog A) w :
  run h p w =
  (trace_of (run h p w), outcome_of (run h p w), world_of (run h p w)).
Proof. destruct (run h p w) as [[tr o] w']; reflexivity. Qed.

Lemma run_ret_inv {A : Type} (a : A) w tr o w' :
  run h (Ret a) w = (tr, o, w') -> tr = [] /\ o = Done a /\ w' = w.
Proof. simpl; intros [= <- <- <-]; auto. Qed.

End RunFacts.

(** Stepping through a run that completed: one call at a time. *)
Ltac exec_done H :=
  repeat (first
    [ apply run_vis_done in H;
      let x := fresh "r" in
      let w := fresh "w" in
      let tr := fresh "tr" in
      let Hh := fresh "Hh" in
      let Ht := fresh "Ht" in
      destruct H as (x & w & tr & Hh & Ht & H);
      try (match type of x with unit => destruct x end);
      subst; cbn [bind] in H
    | apply run_ret_inv in H;
      let Ht := fresh "Ht" in
      let Ho := fresh "Ho" in
      let Hw := fresh "Hw" in
      destruct H as (Ht & Ho & Hw) ]).

(** ** The grid of labels of [save_reconstruction] *)

Section GridLabels.

(** [m] rows of [0, 1, ..., n-1], whatever the outer loop counts from. *)
Lemma rows_nth (n m s r c : nat) :
  r < m -> c < n ->
  nth_error (flat_map (fun _ : nat => seq 0 n) (seq s m)) (r * n + c) = Some c.
Proof.
  revert s r; induction m as [|m IH]; intros s r Hr Hc; [lia|].
  simpl. destruct r as [|r].
  - simpl. rewrite nth_error_app1 by (rewrite length_seq; lia).
    rewrite nth_error_seq.
    destruct (Nat.ltb_spec c n); [reflexivity|lia].
  - rewrite nth_error_app2 by (rewrite length_seq; simpl; lia).
    rewrite length_seq.
    replace (S r * n + c - n) with (r * n + c) by (simpl; lia).
    apply IH; lia.
Qed.

Lemma rows_length (n m s : nat) :
  length (flat_map (fun _ : nat => seq 0 n) (seq s m)) = m * n.
Proof.
  revert s; induction m as [|m IH]; intros s; simpl; [reflexivity|].
  rewrite length_app, length_seq, IH; reflexivity.
Qed.

Lemma seq_count (n c : nat) :
  c < n -> count_occ Nat.eq_dec (seq 0 n) c = 1.
Proof.
  intros Hc. apply NoDup_count_occ'; [apply seq_NoDup|].
  apply in_seq; lia.
Qed.

Lemma rows_count (n m s c : nat) :
  c < n ->
  count_occ Nat.eq_dec (flat_map (fun _ : nat => seq 0 n) (seq s m)) c = m.
Proof.
  intros Hc. revert s; induction m as [|m IH]; intros s; simpl; [reflexivity|].
  rewrite count_occ_app, seq_count by assumption.
  rewrite IH; reflexivity.
Qed.

End GridLabels.

(** C8.  A call of [save_reconstruction] that returns has invoked the
    generator exactly once, on the noise drawn with [n_row ** 2] rows of
    [generator_latent_dim] entries and on the labels built from the list
    [grid_labels n_row].  That list has [n_row ** 2] entries, its [i]-th
    entry is [i mod n_row], every label below [n_row] occurs in it exactly
    [n_row] times, and it sits at column [c] of every row of the grid that
    [save_image] lays out with [nrow = n_row]. *)
Theorem save_reconstruction_labels `{Framework} (W : Type) (h : Handler W)
    (w w' : W) (generator : Net) (generator_latent_dim n_row epoch_n : nat)
    (device : Device) (tr : Trace) (image : Image) :
  run h (save_reconstruction generator generator_latent_dim n_row epoch_n device) w
    = (tr, Done image, w') ->
  (exists a z0 z l0 l1 labels gen_imgs d,
     tr = [ Ev (Makedirs "results" true) (inr tt);
            Ev (NpRandomNormal 0 1 (n_row ^ 2) generator_latent_dim) (inr a);
            Ev (FloatTensor a) (inr z0);
            Ev (To z0 device) (inr z);
            Ev (NpArray (grid_labels n_row)) (inr l0);
            Ev (LongTensor l0) (inr l1);
            Ev (To l1 device) (inr labels);
            Ev (Forward generator z labels) (inr gen_imgs);
            Ev (Data gen_imgs) (inr d);
            Ev (SaveImage d (result_path epoch_n) n_row true) (inr tt);
            Ev (ImRead (result_path epoch_n)) (inr image) ]) /\
  length (grid_labels n_row) = n_row ^ 2 /\
  (forall i, i < n_row ^ 2 ->
     nth_error (grid_labels n_row) i = Some (i mod n_row)) /\
  (forall c, c < n_row ->
     count_occ Nat.eq_dec (grid_labels n_row) c = n_row) /\
  (forall r c, r < n_row -> c < n_row ->
     nth_error (grid_labels n_row) (r * n_row + c) = Some c).
Proof.
  intros Hrun.
  repeat split.
  - unfold save_reconstruction, call in Hrun; cbn [bind] in Hrun.
    exec_done Hrun. subst.
    injection Ho as <-.
    do 8 eexists; reflexivity.
  - unfold grid_labels. rewrite rows_length. simpl; lia.
  - intros i Hi. unfold grid_labels.
    assert (n_row <> 0) by (intros ->; simpl in Hi; lia).
    rewrite (Nat.div_mod_eq i n_row) at 1.
    rewrite (Nat.mul_comm n_row).
    apply rows_nth.
    + apply Nat.Div0.div_lt_upper_bound. simpl in Hi; lia.
    + apply Nat.mod_upper_bound; assumption.
  - intros c Hc. unfold grid_labels. apply rows_count; assumption.
  - intros r c Hr Hc. unfold grid_labels. apply rows_nth; assumption.
Qed.

Lemma save_reconstruction_labels_witness :
  let r := run Toy.quiet Toy.snapshot 0 in
  outcome_of r = Done tt /\
  grid_labels 2 = [0; 1; 0; 1] /\
  length (grid_labels 2) = 2 ^ 2 /\
  count_occ Nat.eq_dec (grid_labels 2) 1 = 2.
Proof.
  split; [vm_compute; reflexivity|].
  split; [reflexivity|].
  assert (E : run Toy.quiet Toy.snapshot 0
              = (trace_of (run Toy.quiet Toy.snapshot 0),
                 Done tt,
                 world_of (run Toy.quiet Toy.snapshot 0)))
    by (vm_compute; reflexivity).
  destruct (@save_reconstruction_labels Toy.framework _ _ _ _ _ _ _ _ _ _ _ E)
    as (_ & Hlen & _ & Hcount & _).
  split; [exact Hlen|apply Hcount; lia].
Defined.

(** ** One batch *)

Section TrainFacts.
Context `{Framework}.
Variable W : Type.
Variable h : Handler W.
Variable a : TrainArgs.

Lemma updates_app (t1 t2 : Trace) : updates (t1 ++ t2) = updates t1 ++ updates t2.
Proof. apply flat_map_app. Qed.

Lemma fs_writes_app (t1 t2 : Trace) :
  fs_writes (t1 ++ t2) = fs_writes t1 ++ fs_writes t2.
Proof. apply flat_map_app. Qed.

Lemma batches_drawn_app (t1 t2 : Trace) :
  batches_drawn (t1 ++ t2) = batches_drawn t1 ++ batches_drawn t2.
Proof. apply flat_map_app. Qed.

Lemma item_values_app (t1 t2 : Trace) :
  item_values (t1 ++ t2) = item_values t1 ++ item_values t2.
Proof. apply flat_map_app. Qed.

Lemma len_values_app (t1 t2 : Trace) :
  len_values (t1 ++ t2) = len_values t1 ++ len_values t2.
Proof. apply flat_map_app. Qed.

Lemma loss_calls_app (t1 t2 : Trace) :
  loss_calls (t1 ++ t2) = loss_calls t1 ++ loss_calls t2.
Proof. unfold loss_calls. apply List.filter_app. Qed.

Lemma train_batch_done (xy : Tensor * Tensor) (rg rd : float) w tr res w' :
  run h (train_batch a xy (rg, rd)) w = (tr, Done res, w') ->
  exists b : BatchLosses,
    BatchShows a tr b /\
    res = (PyFloat.add rg (g_item b), PyFloat.add rd (d_item b)).
Proof.
  intros Hrun.
  unfold train_batch, train_discriminator, train_generator, constant_column,
    sample_noise, sample_labels, call in Hrun.
  cbn [bind] in Hrun.
  exec_done Hrun. subst.
  injection Ho as Ho; subst res.
  match goal with
  | |- context [Ev (Criterion _ ?vr ?va) (inr ?dr) ::
                Ev (Criterion _ ?vf ?fa) (inr ?df) ::
                Ev (Add _ _) (inr ?s) :: Ev (DivInt _ _) (inr ?dl) :: _] =>
      match goal with
      | |- context [Ev (Criterion _ ?v va) (inr ?gl) :: Ev (Backward _) _ ::
                    Ev (Step _) _ :: Ev (Item _) (inr ?g) ::
                    Ev (Item _) (inr ?d) :: _] =>
          exists {| validity_real := vr; validity_fake := vf; validity := v;
                    valid := va; fake := fa; d_real_loss := dr;
                    d_fake_loss := df; d_sum := s; d_loss := dl;
                    g_loss := gl; g_item := g; d_item := d |}
      end
  end.
  split; [split; reflexivity | reflexivity].
Qed.

(** The loop over the batches of one pass. *)
Lemma batch_loop_done (bl : list (Tensor * Tensor)) (rg rd : float) w tr res w' :
  run h (for_each bl (train_batch a) (rg, rd)) w = (tr, Done res, w') ->
  exists bs : list BatchLosses,
    length bs = length bl /\
    updates tr = rounds (optimizer_D a) (optimizer_G a) (length bl) /\
    fs_writes tr = [] /\
    batches_drawn tr = [] /\
    len_values tr = [] /\
    loss_calls tr = flat_map (batch_loss_calls (adv_loss a)) bs /\
    item_values tr = flat_map (fun b => [g_item b; d_item b]) bs /\
    res = (PyFloat.sum_from rg (List.map g_item bs),
           PyFloat.sum_from rd (List.map d_item bs)).
Proof.
  revert rg rd w tr; induction bl as [|xy bl IH]; intros rg rd w tr Hrun.
  - apply run_ret_inv in Hrun. destruct Hrun as (-> & Ho & _).
    injection Ho as Ho; subst res. exists []. repeat split.
  - cbn [for_each] in Hrun.
    apply run_bind_done in Hrun.
    destruct Hrun as (r1 & tr1 & w1 & tr2 & H1 & H2 & ->).
    apply train_batch_done in H1. destruct H1 as (b & Hb & ->).
    apply IH in H2.
    destruct H2 as (bs & Hlen & Hu & Hf & Hb' & Hl & Hc & Hi & ->).
    destruct Hb as [Bu Bf Bb Bl Bc Bi].
    exists (b :: bs).
    rewrite updates_app, fs_writes_app, batches_drawn_app, len_values_app,
      loss_calls_app, item_values_app.
    rewrite Bu, Bf, Bb, Bl, Bc, Bi, Hu, Hf, Hb', Hl, Hc, Hi.
    cbn [length]. rewrite Hlen.
    repeat split.
Qed.

Lemma truediv_done (x : float) (n : nat) w tr q w' :
  run h (truediv x n) w = (tr, Done q, w') ->
  n <> 0 /\ q = PyFloat.div x (PyFloat.of_nat n) /\ tr = [] /\ w' = w.
Proof.
  unfold truediv. destruct (Nat.eqb_spec n 0) as [->|Hn]; simpl.
  - discriminate.
  - intros [= <- <- <-]. auto.
Qed.

Lemma train_epoch_done (epoch : nat) (ml : ModelLoss) w tr ml' w' :
  run h (train_epoch a epoch ml) w = (tr, Done ml', w') ->
  exists e : EpochRun,
    EpochShows a epoch tr e /\
    ml' = append_discriminator (append_generator ml (epoch_g_loss e))
            (epoch_d_loss e).
Proof.
  intros Hrun.
  unfold train_epoch in Hrun.
  rewrite Nat.mod_1_r in Hrun. cbn [Nat.eqb] in Hrun.
  unfold call in Hrun. cbn [bind] in Hrun.
  exec_done Hrun.
  apply run_bind_done in Hrun.
  destruct Hrun as (running & trl & wl & tr3 & Hloop & Hrun & ->).
  destruct (batch_loop_done _ _ _ _ Hloop)
    as (bs & Hlen & Hu & Hf & Hb & Hl & Hc & Hi & ->).
  cbn [fst snd] in Hrun.
  exec_done Hrun.
  apply run_bind_done in Hrun.
  destruct Hrun as (g & trg & wg & tr4 & Hg & Hrun & ->).
  apply truediv_done in Hg. destruct Hg as (Hn1 & -> & -> & ->).
  exec_done Hrun.
  apply run_bind_done in Hrun.
  destruct Hrun as (d & trd & wd & tr5 & Hd & Hrun & ->).
  apply truediv_done in Hd. destruct Hd as (Hn2 & -> & -> & ->).
  unfold save_reconstruction, init_figure, plot_current_results, call in Hrun.
  cbn [bind fst snd] in Hrun.
  exec_done Hrun. subst.
  injection Ho as Ho; subst ml'.
  match goal with
  | |- context [Ev (Iterate _) (inr ?b)] =>
      match goal with
      | |- context [Ev (Len _) (inr ?n1) :: [] ++ Ev (Len _) (inr ?n2) :: _] =>
          exists {| batches := b; losses := bs; len_g := n1; len_d := n2 |}
      end
  end.
  split; [|reflexivity].
  split; cbn [batches losses len_g len_d]; try assumption;
    simpl;
    rewrite ?updates_app, ?fs_writes_app, ?batches_drawn_app,
      ?len_values_app, ?loss_calls_app, ?item_values_app;
    simpl;
    rewrite ?Hu, ?Hf, ?Hb, ?Hl, ?Hc, ?Hi, ?app_nil_r; try reflexivity.
Qed.

Lemma epoch_loop_done (n s : nat) (ml : ModelLoss) w tr ml' w' :
  run h (for_each (seq s n) (train_epoch a) ml) w = (tr, Done ml', w') ->
  exists es : list EpochRun,
    length es = n /\
    EpochsShow a s tr es /\
    generator_losses ml' = generator_losses ml ++ List.map epoch_g_loss es /\
    discriminator_losses ml' =
      discriminator_losses ml ++ List.map epoch_d_loss es.
Proof.
  revert s ml w tr; induction n as [|n IH]; intros s ml w tr Hrun.
  - apply run_ret_inv in Hrun. destruct Hrun as (-> & Ho & _).
    injection Ho as Ho; subst ml'.
    exists []. rewrite !app_nil_r.
    repeat split; constructor.
  - cbn [seq for_each] in Hrun.
    apply run_bind_done in Hrun.
    destruct Hrun as (ml1 & tr1 & w1 & tr2 & H1 & H2 & ->).
    apply train_epoch_done in H1. destruct H1 as (e & He & ->).
    apply IH in H2. destruct H2 as (es & Hlen & Hes & Hg & Hd).
    destruct He as [Eb El Eu Ef Ec Ei En Eg Ed].
    destruct Hes as [Rb Ru Rf Rc Ri Rn Rw].
    exists (e :: es). split; [simpl; congruence|].
    split; [split|].
    + rewrite batches_drawn_app, Eb, Rb; reflexivity.
    + rewrite updates_app, Eu, Ru; reflexivity.
    + rewrite fs_writes_app, Ef, Rf; reflexivity.
    + rewrite loss_calls_app, Ec, Rc; reflexivity.
    + rewrite item_values_app, Ei, Ri; reflexivity.
    + rewrite len_values_app, En, Rn; reflexivity.
    + constructor; auto.
    + rewrite Hg, Hd. simpl. rewrite <- !app_assoc. auto.
Qed.

Lemma train_epochs_done (ml : ModelLoss) w tr ml' w' :
  run h (train_epochs a ml) w = (tr, Done ml', w') ->
  exists es : list EpochRun,
    length es = epochs a /\
    EpochsShow a 0 tr es /\
    generator_losses ml' = generator_losses ml ++ List.map epoch_g_loss es /\
    discriminator_losses ml' =
      discriminator_losses ml ++ List.map epoch_d_loss es.
Proof. apply epoch_loop_done. Qed.

(** A completed run of [train_model]: the epochs, then the loss plot of
    the history gathered in this very call. *)
Lemma train_model_done w tr (u : unit) w' :
  run h (train_model a) w = (tr, Done u, w') ->
  exists (es : list EpochRun) (tr1 : Trace),
    length es = epochs a /\
    EpochsShow a 0 tr1 es /\
    tr = tr1 ++
         [ Ev (PltPlot (List.map epoch_g_loss es) "generator") (inr tt);
           Ev (PltPlot (List.map epoch_d_loss es) "discriminator") (inr tt);
           Ev (PltTitle "Loss plot") (inr tt);
           Ev PltLegend (inr tt);
           Ev PltShow (inr tt) ].
Proof.
  intros Hrun. unfold train_model in Hrun.
  apply run_bind_done in Hrun.
  destruct Hrun as (ml & tr1 & w1 & tr2 & H1 & H2 & ->).
  apply train_epochs_done in H1.
  destruct H1 as (es & Hlen & Hes & Hg & Hd).
  unfold plot_loss, items, call in H2. cbn [for_each bind fst snd] in H2.
  exec_done H2. subst.
  exists es, tr1. rewrite Hg, Hd. auto.
Qed.

End TrainFacts.

(** ** The order of the optimizer steps *)

Section Alternation.
Context `{Framework}.
Variable W : Type.
Variable h : Handler W.
Variable a : TrainArgs.

Lemma altrun_app s l1 s1 l2 s2 :
  AltRun a s l1 s1 -> AltRun a s1 l2 s2 -> AltRun a s (l1 ++ l2) s2.
Proof.
  induction 1; intros H2; simpl; auto; constructor; auto.
Qed.

Lemma keeps_ret {A : Type} (x : A) s : Keeps h a s s (Ret x).
Proof.
  intros w tr o w' Hrun. apply run_ret_inv in Hrun.
  destruct Hrun as (-> & _ & _).
  split; [exists s|intros _ _]; constructor.
Qed.

Lemma keeps_raise {A : Type} (e : Exn) s s' : Keeps h a s s' (Raise e : Prog A).
Proof.
  intros w tr o w'. simpl. intros [= <- <- <-].
  split; [exists s; constructor|discriminate].
Qed.

Lemma keeps_quiet {X : Type} (c : Call X) s :
  (forall r, updates_of (Ev c r) = []) -> Keeps h a s s (call c).
Proof.
  intros Hq w tr o w' Hrun. unfold call in Hrun.
  apply run_vis_inv in Hrun.
  destruct Hrun as [(e & _ & -> & _)|(x & w1 & tr1 & _ & -> & Hrun)].
  - unfold updates. cbn [flat_map]. rewrite Hq.
    split; [exists s|intros _ _]; constructor.
  - apply run_ret_inv in Hrun. destruct Hrun as (-> & _ & _).
    unfold updates. cbn [flat_map]. rewrite Hq.
    split; [exists s|intros _ _]; constructor.
Qed.

Lemma keeps_step_d : Keeps h a ExpectD ExpectG (call (Step (optimizer_D a))).
Proof.
  intros w tr o w' Hrun. unfold call in Hrun.
  apply run_vis_inv in Hrun.
  destruct Hrun as [(e & _ & -> & ->)|(x & w1 & tr1 & _ & -> & Hrun)].
  - split; [exists ExpectD; constructor|discriminate].
  - apply run_ret_inv in Hrun. destruct Hrun as (-> & _ & _).
    split; [exists ExpectG|intros _ _]; repeat constructor.
Qed.

Lemma keeps_step_g : Keeps h a ExpectG ExpectD (call (Step (optimizer_G a))).
Proof.
  intros w tr o w' Hrun. unfold call in Hrun.
  apply run_vis_inv in Hrun.
  destruct Hrun as [(e & _ & -> & ->)|(x & w1 & tr1 & _ & -> & Hrun)].
  - split; [exists ExpectG; constructor|discriminate].
  - apply run_ret_inv in Hrun. destruct Hrun as (-> & _ & _).
    split; [exists ExpectD|intros _ _]; repeat constructor.
Qed.

Lemma keeps_bind {A B : Type} (p : Prog A) (f : A -> Prog B) s s1 s2 :
  Keeps h a s s1 p -> (forall x, Keeps h a s1 s2 (f x)) -> Keeps h a s s2 (bind p f).
Proof.
  intros Hp Hf w tr o w' Hrun. rewrite run_bind in Hrun.
  destruct (run h p w) as [[tr1 o1] w1] eqn:E1.
  destruct (Hp _ _ _ _ E1) as [Hany Hdone].
  destruct o1 as [x|e].
  - destruct (run h (f x) w1) as [[tr2 o2] w2] eqn:E2.
    injection Hrun as <- <- <-.
    destruct (Hf x _ _ _ _ E2) as [[s'' Hany2] Hdone2].
    rewrite updates_app.
    split.
    + exists s''. eapply altrun_app; eauto.
    + intros y Hy. eapply altrun_app; eauto.
  - injection Hrun as <- <- <-.
    split; [assumption|discriminate].
Qed.

Lemma keeps_for_each {A S : Type} (l : list A) (body : A -> S -> Prog S) s :
  (forall x st, Keeps h a s s (body x st)) ->
  forall st, Keeps h a s s (for_each l body st).
Proof.
  intros Hbody. induction l as [|x l IH]; intros st; simpl.
  - apply keeps_ret.
  - eapply keeps_bind; [apply Hbody|apply IH].
Qed.

End Alternation.

(** Going through a program call by call. *)
Ltac keeps :=
  repeat first
    [ apply keeps_ret
    | apply keeps_raise
    | apply keeps_step_d
    | apply keeps_step_g
    | apply keeps_quiet; intros [?|?]; reflexivity
    | eapply keeps_bind; [|intros] ].

Section AlternationOfTraining.
Context `{Framework}.
Variable W : Type.
Variable h : Handler W.
Variable a : TrainArgs.

Lemma keeps_train_batch xy running :
  Keeps h a ExpectD ExpectD (train_batch a xy running).
Proof.
  destruct running as [rg rd].
  unfold train_batch, train_discriminator, train_generator, constant_column,
    sample_noise, sample_labels.
  keeps.
Qed.

Lemma keeps_truediv x n s : Keeps h a s s (truediv x n).
Proof. unfold truediv. destruct (Nat.eqb n 0); keeps. Qed.

Lemma keeps_train_epoch epoch ml :
  Keeps h a ExpectD ExpectD (train_epoch a epoch ml).
Proof.
  unfold train_epoch.
  rewrite Nat.mod_1_r. cbn [Nat.eqb].
  unfold save_reconstruction, init_figure, plot_current_results.
  repeat first
    [ apply keeps_truediv
    | apply keeps_for_each; intros; apply keeps_train_batch
    | apply keeps_ret
    | apply keeps_quiet; intros [?|?]; reflexivity
    | eapply keeps_bind; [|intros]
    | match goal with |- context [let '(_, _) := ?x in _] => destruct x end ].
Qed.

Lemma keeps_train_model : Keeps h a ExpectD ExpectD (train_model a).
Proof.
  unfold train_model, train_epochs, plot_loss.
  repeat first
    [ apply keeps_for_each; intros; apply keeps_train_epoch
    | apply keeps_for_each; intros
    | apply keeps_ret
    | apply keeps_quiet; intros [?|?]; reflexivity
    | eapply keeps_bind; [|intros] ].
Qed.

Lemma altrun_rounds s0 l s :
  AltRun a s0 l s ->
  let P l :=
    (exists k, l = rounds (optimizer_D a) (optimizer_G a) k /\ s = ExpectD) \/
    (exists k, l = rounds (optimizer_D a) (optimizer_G a) k ++ [optimizer_D a]
               /\ s = ExpectG) in
  match s0 with
  | ExpectD => P l
  | ExpectG => P (optimizer_D a :: l)
  end.
Proof.
  induction 1 as [s|l s HA IH|l s HA IH]; simpl in *.
  - destruct s; [left|right]; exists 0; auto.
  - assumption.
  - destruct IH as [(k & -> & ->)|(k & -> & ->)]; [left|right];
      exists (S k); auto.
Qed.

Lemma rounds_add (d g : Optim) (m n : nat) :
  rounds d g (m + n) = rounds d g m ++ rounds d g n.
Proof.
  unfold rounds. rewrite repeat_app, concat_app. reflexivity.
Qed.

Lemma rounds_flat_map (d g : Optim) (es : list EpochRun) :
  flat_map (fun e => rounds d g (length (batches e))) es =
  rounds d g (length (flat_map batches es)).
Proof.
  induction es as [|e es IH]; simpl; [reflexivity|].
  rewrite length_app, rounds_add, IH. reflexivity.
Qed.

End AlternationOfTraining.

(** C2.  In a pass through the loop body that returns, the optimizer steps
    performed are exactly [optimizer_D.step()] then [optimizer_G.step()].
    In every run of [train_model], whatever its outcome, the steps
    performed come in turn, discriminator first: they are some number of
    discriminator-generator rounds, possibly followed by one more
    discriminator step when the run was cut short by an exception.  When
    [train_model] returns, there is exactly one round for each batch the
    dataloader handed out. *)
Theorem train_model_alternates `{Framework} (W : Type) (h : Handler W)
    (a : TrainArgs) :
  (forall xy running w tr res w',
     run h (train_batch a xy running) w = (tr, Done res, w') ->
     updates tr = [optimizer_D a; optimizer_G a]) /\
  (forall w tr o w',
     run h (train_model a) w = (tr, o, w') ->
     (exists k,
        updates tr = rounds (optimizer_D a) (optimizer_G a) k \/
        updates tr = rounds (optimizer_D a) (optimizer_G a) k
                       ++ [optimizer_D a]) /\
     (forall u, o = Done u ->
        updates tr = rounds (optimizer_D a) (optimizer_G a)
                       (length (batches_drawn tr)))).
Proof.
  split.
  - intros [x y] [rg rd] w tr res w' Hrun.
    apply train_batch_done in Hrun. destruct Hrun as (b & [Hu _ _ _ _ _] & _).
    exact Hu.
  - intros w tr o w' Hrun. split.
    + destruct (keeps_train_model h a _ Hrun) as [[s HA] _].
      apply altrun_rounds in HA. simpl in HA.
      destruct HA as [(k & -> & _)|(k & -> & _)]; exists k; auto.
    + intros u ->. apply train_model_done in Hrun.
      destruct Hrun as (es & tr1 & _ & [Rb Ru _ _ _ _ _] & ->).
      rewrite updates_app, batches_drawn_app, Ru, Rb. simpl.
      rewrite !app_nil_r. apply rounds_flat_map.
Qed.

Lemma train_model_alternates_witness :
  let r := run Toy.quiet (train_model (Toy.args 2)) 0 in
  outcome_of r = Done tt /\
  updates (trace_of r) = [false; true; false; true; false; true; false; true].
Proof.
  split; [vm_compute; reflexivity|].
  destruct (train_model_alternates Toy.quiet (Toy.args 2)) as [_ Hrun].
  destruct (Hrun 0 _ _ _ (run_eta _ _ _)) as [_ Hdone].
  rewrite (Hdone tt); vm_compute; reflexivity.
Defined.

(** ** The loss history *)

(** C3.  The history only grows, by one generator loss and one
    discriminator loss for each epoch: an epoch that completes returns the
    history it was given with one value appended to each list; the epoch
    loop returns the history it was given followed by [epochs] values on
    each side; and [train_model], which returns nothing, starts from the
    empty history, so that what it hands to the final loss plot are two
    lists of [epochs] values gathered in this call alone. *)
Theorem loss_history_append_only `{Framework} (W : Type) (h : Handler W)
    (a : TrainArgs) :
  (forall epoch ml w tr ml' w',
     run h (train_epoch a epoch ml) w = (tr, Done ml', w') ->
     exists g d,
       generator_losses ml' = generator_losses ml ++ [g] /\
       discriminator_losses ml' = discriminator_losses ml ++ [d]) /\
  (forall ml w tr ml' w',
     run h (train_epochs a ml) w = (tr, Done ml', w') ->
     exists gs ds,
       length gs = epochs a /\ length ds = epochs a /\
       generator_losses ml' = generator_losses ml ++ gs /\
       discriminator_losses ml' = discriminator_losses ml ++ ds) /\
  (forall w tr (u : unit) w',
     run h (train_model a) w = (tr, Done u, w') ->
     exists gs ds tr1,
       length gs = epochs a /\ length ds = epochs a /\
       tr = tr1 ++ [ Ev (PltPlot gs "generator") (inr tt);
                     Ev (PltPlot ds "discriminator") (inr tt);
                     Ev (PltTitle "Loss plot") (inr tt);
                     Ev PltLegend (inr tt);
                     Ev PltShow (inr tt) ]).
Proof.
  repeat split.
  - intros epoch ml w tr ml' w' Hrun.
    apply train_epoch_done in Hrun. destruct Hrun as (e & _ & ->).
    exists (epoch_g_loss e), (epoch_d_loss e). auto.
  - intros ml w tr ml' w' Hrun.
    apply train_epochs_done in Hrun.
    destruct Hrun as (es & Hlen & _ & Hg & Hd).
    exists (List.map epoch_g_loss es), (List.map epoch_d_loss es).
    rewrite !length_map. auto.
  - intros w tr u w' Hrun.
    apply train_model_done in Hrun.
    destruct Hrun as (es & tr1 & Hlen & _ & ->).
    exists (List.map epoch_g_loss es), (List.map epoch_d_loss es), tr1.
    rewrite !length_map. auto.
Qed.

Lemma loss_history_append_only_witness :
  let r := run Toy.quiet (train_epochs (Toy.args 2) Toy.no_history) 0 in
  exists ml',
    outcome_of r = Done ml' /\
    length (generator_losses ml') = 2 /\
    length (discriminator_losses ml') = 2.
Proof.
  eexists; split; [vm_compute; reflexivity|].
  destruct (loss_history_append_only Toy.quiet (Toy.args 2)) as (_ & Hloop & _).
  match goal with
  | |- length (generator_losses ?m) = _ /\ _ =>
      assert (E : run Toy.quiet (train_epochs (Toy.args 2) Toy.no_history) 0
                  = (trace_of (run Toy.quiet
                                 (train_epochs (Toy.args 2) Toy.no_history) 0),
                     Done m,
                     world_of (run Toy.quiet
                                 (train_epochs (Toy.args 2) Toy.no_history) 0)))
        by (vm_compute; reflexivity)
  end.
  destruct (Hloop _ _ _ _ _ E) as (gs & ds & Hg & Hd & Eg & Ed).
  rewrite Eg, Ed, !length_app, Hg, Hd. split; reflexivity.
Defined.

(** ** The files written *)

Lemma append_length (s t : string) :
  String.length (s ++ t)%string = String.length s + String.length t.
Proof.
  induction s as [|c s IH]; [reflexivity|].
  change (S (String.length (s ++ t)%string) = S (String.length s + String.length t)).
  rewrite IH; reflexivity.
Qed.

Lemma append_cancel_r (x y s : string) :
  (x ++ s)%string = (y ++ s)%string -> x = y.
Proof.
  revert y; induction x as [|c x IH]; intros [|d y] E.
  - reflexivity.
  - apply (f_equal String.length) in E.
    rewrite !append_length in E. simpl in E. lia.
  - apply (f_equal String.length) in E.
    rewrite !append_length in E. simpl in E. lia.
  - change (String c (x ++ s)%string = String d (y ++ s)%string) in E.
    injection E as -> E. f_equal. apply IH; assumption.
Qed.

Lemma append_cancel_l (p x y : string) :
  (p ++ x)%string = (p ++ y)%string -> x = y.
Proof.
  induction p as [|c p IH]; intros E; [exact E|].
  change (String c (p ++ x)%string = String c (p ++ y)%string) in E.
  injection E as E. apply IH; assumption.
Qed.

Lemma decimal_inj (m n : nat) : decimal m = decimal n -> m = n.
Proof.
  unfold decimal. intros E.
  apply (f_equal NilEmpty.uint_of_string) in E.
  rewrite !NilEmpty.usu in E. injection E as E.
  apply (f_equal Nat.of_uint) in E.
  rewrite !Unsigned.of_to in E. exact E.
Qed.

Lemma result_path_inj (m n : nat) : result_path m = result_path n -> m = n.
Proof.
  unfold result_path. intros E.
  apply decimal_inj. apply append_cancel_r with (s := ".png"%string).
  apply append_cancel_l with (p := "results/"%string). exact E.
Qed.

Example result_path_17 : result_path 17 = "results/17.png"%string.
Proof. reflexivity. Qed.

(** C4.  When [train_model] returns, what it asked the filesystem to
    write is, for each epoch index 0, 1, ..., [epochs - 1] in turn,
    [os.makedirs('results', exist_ok=True)] followed by one image saved
    as [results/<epoch>.png], and nothing else; different epochs have
    different file names. *)
Theorem one_image_per_epoch `{Framework} (W : Type) (h : Handler W)
    (a : TrainArgs) w tr (u : unit) w' :
  run h (train_model a) w = (tr, Done u, w') ->
  fs_writes tr =
    flat_map (fun epoch => [MkDirs "results" true;
                            WriteImage (result_path epoch)])
      (seq 0 (epochs a)) /\
  (forall e1 e2, result_path e1 = result_path e2 -> e1 = e2) /\
  (forall e, result_path e = ("results/" ++ decimal e ++ ".png")%string).
Proof.
  intros Hrun. apply train_model_done in Hrun.
  destruct Hrun as (es & tr1 & Hlen & [_ _ Rf _ _ _ _] & ->).
  repeat split.
  - rewrite fs_writes_app, Rf, Hlen. simpl. apply app_nil_r.
  - apply result_path_inj.
Qed.

Lemma one_image_per_epoch_witness :
  let r := run Toy.quiet (train_model (Toy.args 2)) 0 in
  outcome_of r = Done tt /\
  fs_writes (trace_of r) =
    [ MkDirs "results" true; WriteImage "results/0.png";
      MkDirs "results" true; WriteImage "results/1.png" ].
Proof.
  split; [vm_compute; reflexivity|].
  assert (E : run Toy.quiet (train_model (Toy.args 2)) 0
              = (trace_of (run Toy.quiet (train_model (Toy.args 2)) 0),
                 Done tt,
                 world_of (run Toy.quiet (train_model (Toy.args 2)) 0)))
    by (vm_compute; reflexivity).
  destruct (@one_image_per_epoch Toy.framework _ _ _ _ _ _ _ E)
    as (Hfs & _ & _).
  rewrite Hfs. reflexivity.
Defined.

(** ** The recorded losses *)

(** C9.  For an epoch that completes there are, for each batch the
    dataloader handed out, the loss computations [batch_loss_calls] of
    that batch (the generator loss; the real-sample and fake-sample
    losses, their sum and the sum divided by 2; and the two floats read by
    [.item()]), and the two answers [len_g], [len_d] of [len(dataloader)],
    such that the value appended to the generator history is the sum of the
    batches' [g_loss.item()] divided by [len(dataloader)], and the value
    appended to the discriminator history is the sum of the batches'
    [d_loss.item()], with [d_loss = (d_real_loss + d_fake_loss) / 2],
    divided by [len(dataloader)].  Sums and quotients are those of Python
    floats; the sums start from 0 and add batch by batch. *)
Theorem recorded_losses_are_batch_means `{Framework} (W : Type)
    (h : Handler W) (a : TrainArgs) epoch ml w tr ml' w' :
  run h (train_epoch a epoch ml) w = (tr, Done ml', w') ->
  exists e : EpochRun,
    batches_drawn tr = batches e /\
    length (losses e) = length (batches e) /\
    loss_calls tr = flat_map (batch_loss_calls (adv_loss a)) (losses e) /\
    len_values tr = [len_g e; len_d e] /\
    generator_losses ml' =
      generator_losses ml ++
      [PyFloat.div
         (PyFloat.sum_from PyFloat.zero (List.map g_item (losses e)))
         (PyFloat.of_nat (len_g e))] /\
    discriminator_losses ml' =
      discriminator_losses ml ++
      [PyFloat.div
         (PyFloat.sum_from PyFloat.zero (List.map d_item (losses e)))
         (PyFloat.of_nat (len_d e))].
Proof.
  intros Hrun. apply train_epoch_done in Hrun.
  destruct Hrun as (e & [Eb El _ _ Ec _ En _ _] & ->).
  exists e. repeat split; assumption.
Qed.

Lemma recorded_losses_are_batch_means_witness :
  let r := run Toy.quiet (train_epoch (Toy.args 1) 0 Toy.no_history) 0 in
  exists ml',
    outcome_of r = Done ml' /\
    length (batches_drawn (trace_of r)) = 2 /\
    generator_losses ml' = [lit_1_0] /\
    discriminator_losses ml' = [lit_1_0].
Proof.
  eexists; split; [vm_compute; reflexivity|].
  match goal with
  | |- _ /\ generator_losses ?m = _ /\ _ =>
      assert (E : run Toy.quiet (train_epoch (Toy.args 1) 0 Toy.no_history) 0
                  = (trace_of (run Toy.quiet
                        (train_epoch (Toy.args 1) 0 Toy.no_history) 0),
                     Done m,
                     world_of (run Toy.quiet
                        (train_epoch (Toy.args 1) 0 Toy.no_history) 0)))
        by (vm_compute; reflexivity)
  end.
  destruct (@recorded_losses_are_batch_means Toy.framework
              _ _ _ _ _ _ _ _ _ E)
    as (e & Eb & El & Ec & En & Eg & Ed).
  repeat split; vm_compute; reflexivity.
Defined.

(** ** Finite and non-finite losses *)








(** ** Exceptions *)





(** ** The configuration *)


(** To the end of a cell: what the calls on the way answered does not
    matter, only what the cell returns. *)
Ltac to_the_end H :=
  repeat (apply run_bind_done in H;
          let x := fresh "x" in
          let tr1 := fresh "tr" in
          let w1 := fresh "w" in
          let tr2 := fresh "tr" in
          destruct H as (x & tr1 & w1 & tr2 & _ & H & _));
  apply run_ret_inv in H;
  let Ho := fresh "Ho" in
  destruct H as (_ & Ho & _);
  injection Ho as Ho; subst.

Section ConfigurationFacts.
Context `{Framework}.
Variable W : Type.
Variable h : Handler W.

Lemma cell_2_preserves : Preserves h Cells.cell_2.
Proof. intros g w tr g' w' Hrun. unfold Cells.cell_2 in Hrun. to_the_end Hrun. reflexivity. Qed.

Lemma cell_3_preserves : Preserves h Cells.cell_3.
Proof. intros g w tr g' w' Hrun. unfold Cells.cell_3 in Hrun. to_the_end Hrun. reflexivity. Qed.

Lemma cell_8_preserves : Preserves h Cells.cell_8.
Proof. intros g w tr g' w' Hrun. unfold Cells.cell_8 in Hrun. to_the_end Hrun. reflexivity. Qed.

Lemma cell_18_preserves : Preserves h Cells.cell_18.
Proof. intros g w tr g' w' Hrun. unfold Cells.cell_18 in Hrun. to_the_end Hrun. reflexivity. Qed.

Lemma cell_20_preserves : Preserves h Cells.cell_20.
Proof. intros g w tr g' w' Hrun. unfold Cells.cell_20 in Hrun. to_the_end Hrun. reflexivity. Qed.

Lemma cell_26_preserves : Preserves h Cells.cell_26.
Proof. intros g w tr g' w' Hrun. unfold Cells.cell_26 in Hrun. to_the_end Hrun. reflexivity. Qed.

Lemma cell_29_preserves : Preserves h Cells.cell_29.
Proof. intros g w tr g' w' Hrun. unfold Cells.cell_29 in Hrun. to_the_end Hrun. reflexivity. Qed.

Lemma cell_5_declares g w tr g' w' :
  run h (Cells.cell_5 g) w = (tr, Done g', w') -> config_of g' = initial_config.
Proof. intros Hrun. unfold Cells.cell_5 in Hrun. to_the_end Hrun. reflexivity. Qed.

Lemma later_cells_preserve cell : List.In cell later_cells -> Preserves h cell.
Proof.
  unfold later_cells. simpl.
  intros [<-|[<-|[<-|[<-|[<-|[<-|[<-|[]]]]]]]];
    auto using cell_2_preserves, cell_3_preserves, cell_8_preserves,
      cell_18_preserves, cell_20_preserves, cell_26_preserves,
      cell_29_preserves.
Qed.

(** Any sequence of cells, in any order and with repetitions, run from
    globals that hold the initial configuration, ends with globals that
    hold it. *)
Lemma cells_keep_config cs :
  Forall (fun cell => List.In cell Cells.cells) cs ->
  forall g w tr g' w',
    config_of g = initial_config ->
    run h (Cells.run_cells cs g) w = (tr, Done g', w') ->
    config_of g' = initial_config.
Proof.
  induction 1 as [|cell cs Hin Hcs IH]; intros g w tr g' w' Hg Hrun.
  - apply run_ret_inv in Hrun. destruct Hrun as (_ & Ho & _).
    injection Ho as <-. exact Hg.
  - unfold Cells.run_cells in Hrun. cbn [for_each] in Hrun.
    apply run_bind_done in Hrun.
    destruct Hrun as (g1 & tr1 & w1 & tr2 & H1 & H2 & _).
    apply (IH g1 w1 tr2 g' w'); [|exact H2].
    unfold Cells.cells in Hin. simpl in Hin.
    destruct Hin as [<-|[<-|[<-|Hin]]].
    + apply cell_2_preserves in H1. rewrite H1; exact Hg.
    + apply cell_3_preserves in H1. rewrite H1; exact Hg.
    + apply cell_5_declares in H1. exact H1.
    + assert (Hl : List.In cell later_cells)
        by (unfold later_cells; simpl; tauto).
      apply (later_cells_preserve Hl) in H1. rewrite H1; exact Hg.
Qed.

End ConfigurationFacts.

Lemma firstn_subset {A : Type} (n : nat) (l : list A) (x : A) :
  List.In x (firstn n l) -> List.In x l.
Proof.
  revert l; induction n as [|n IH]; intros [|y l]; simpl; try tauto.
  intros [->|Hin]; auto.
Qed.

(** C6.  After the cell that declares them, [TRAIN_PARAMETERS] and
    [MODEL_HYPERPARAMETERS] are bound to the dicts of the declaration and
    stay so: no other cell rebinds or changes them (data loading, model
    construction, training and snapshot saving receive entries of the
    dicts as arguments, never the dicts), and the declaring cell itself
    always binds the same two dicts.  So the notebook run top to bottom,
    stopped after any number of cells from the declaration on, and any
    further execution of cells in any order, leave the configuration equal
    to the initial one. *)
Theorem configuration_is_never_mutated `{Framework} (W : Type) (h : Handler W) :
  (forall cell, List.In cell later_cells -> Preserves h cell) /\
  (forall k w tr g w',
     3 <= k ->
     run h (Cells.run_cells (firstn k Cells.cells) Cells.fresh) w
       = (tr, Done g, w') ->
     config_of g = initial_config) /\
  (forall cs g w tr g' w',
     Forall (fun cell => List.In cell Cells.cells) cs ->
     config_of g = initial_config ->
     run h (Cells.run_cells cs g) w = (tr, Done g', w') ->
     config_of g' = initial_config).
Proof.
  split; [|split].
  - intros cell Hin. apply later_cells_preserve; assumption.
  - intros k w tr g w' Hk Hrun.
    destruct k as [|[|[|k]]]; try lia.
    unfold Cells.run_cells, Cells.cells in Hrun.
    cbn [firstn for_each] in Hrun.
    apply run_bind_done in Hrun.
    destruct Hrun as (g1 & tr1 & w1 & tr2 & H1 & Hrun & _).
    apply run_bind_done in Hrun.
    destruct Hrun as (g2 & tr3 & w2 & tr4 & H2 & Hrun & _).
    apply run_bind_done in Hrun.
    destruct Hrun as (g3 & tr5 & w3 & tr6 & H3 & Hrun & _).
    apply cell_5_declares in H3.
    eapply cells_keep_config; [|exact H3|exact Hrun].
    apply List.Forall_forall. intros cell Hin.
    apply firstn_subset in Hin. unfold Cells.cells. simpl in *. tauto.
  - intros cs g w tr g' w' Hcs Hg Hrun.
    eapply cells_keep_config; eauto.
Qed.

Lemma configuration_is_never_mutated_witness :
  let r := run Toy.quiet
             (Cells.run_cells (firstn 6 Cells.cells) Cells.fresh) 0 in
  exists g,
    outcome_of r = Done g /\
    config_of g = initial_config.
Proof.
  eexists; split; [vm_compute; reflexivity|].
  match goal with
  | |- config_of ?g = _ =>
      assert (E : run Toy.quiet
                    (Cells.run_cells (firstn 6 Cells.cells) Cells.fresh) 0
                  = (trace_of (run Toy.quiet
                        (Cells.run_cells (firstn 6 Cells.cells) Cells.fresh) 0),
                     Done g,
                     world_of (run Toy.quiet
                        (Cells.run_cells (firstn 6 Cells.cells) Cells.fresh) 0)))
        by (vm_compute; reflexivity)
  end.
  destruct (configuration_is_never_mutated Toy.quiet) as (_ & Hrun & _).
  apply (Hrun 6 _ _ _ _ ltac:(lia) E).
Defined.

(** The entries, and the notebook run through its first training: the
    200 epochs of the configuration leave 200 snapshots, and the
    configuration is the initial one. *)
Example config_entries :
  Cells.TRAIN_PARAMETERS_0 !! "epochs"%string = Some (Cells.PyInt 200) /\
  Cells.TRAIN_PARAMETERS_0 !! "batch_size"%string = Some (Cells.PyInt 128) /\
  Cells.TRAIN_PARAMETERS_0 !! "img_shape"%string
    = Some (Cells.PyTuple [1; 28; 28]) /\
  Cells.TRAIN_PARAMETERS_0 !! "lr"%string = None /\
  Cells.MODEL_HYPERPARAMETERS_0 !! "generator_latent_dim"%string
    = Some (Cells.PyInt 100).
Proof. vm_compute. auto. Qed.

Example notebook_through_first_training :
  let r := run Toy.quiet
             (Cells.run_cells (firstn 7 Cells.cells) Cells.fresh) 0 in
  (exists g, outcome_of r = Done g /\ config_of g = initial_config) /\
  length (fs_writes (trace_of r)) = 400 /\
  nth_error (fs_writes (trace_of r)) 399 = Some (WriteImage "results/199.png").
Proof.
  split; [eexists; split; vm_compute; reflexivity|].
  vm_compute. auto.
Qed.

(** ** Who changes whose parameters *)

Section TransitionFacts.
Context `{Framework}.
Variable W : Type.
Variable h : Handler W.

(** What holds of every answer of the handler holds of every transition
    of every run. *)
Lemma transitions_forall (P : W * Event * W -> Prop) :
  (forall X (c : Call X) w, P (w, Ev c (fst (h c w)), snd (h c w))) ->
  forall A (p : Prog A) w, Forall P (transitions h p w).
Proof.
  intros Hstep A p. induction p as [x|e|X c k IH]; intros w; simpl.
  - constructor.
  - constructor.
  - specialize (Hstep X c w).
    destruct (h c w) as [[e|x] w1]; simpl in Hstep.
    + repeat constructor; assumption.
    + constructor; [assumption|apply IH].
Qed.

End TransitionFacts.

Section TorchFacts.
Variables Payload Arr Params Grads OptState Loss Ds Dl Img Fig Ax Env : Type.

#[local] Existing Instance Torch.torch_framework.

Abbreviation TTensor := (Torch.TTensor Payload).
Abbreviation World := (Torch.World Params Grads OptState Env).
Abbreviation fw := (Torch.torch_framework Payload Arr Loss Ds Dl Img Fig Ax).

Variable oracle : forall X : Type, @Call fw X -> World -> (Exn + X) * Env.
Variable zero_grads : Grads -> Grads.
Variable gradient : Torch.NetId -> TTensor -> World -> Grads.
Variable accumulate : Grads -> Grads -> Grads.
Variable adam_step : OptState -> Params -> Grads -> Params * OptState.

Abbreviation th :=
  (Torch.handler oracle zero_grads gradient accumulate adam_step).

Lemma th_raised X (c : @Call fw X) (w w' : World) (e : Exn) :
  th c w = (inl e, w') ->
  Torch.params w' = Torch.params w /\ Torch.grads w' = Torch.grads w.
Proof.
  unfold Torch.handler.
  destruct (Torch.refused c) as [e0|].
  - intros [= _ <-]. auto.
  - destruct (oracle c w) as [[e0|x] env'].
    + intros [= _ <-]. auto.
    + discriminate.
Qed.

Lemma th_returned X (c : @Call fw X) (w w' : World) (x : X) :
  th c w = (inr x, w') ->
  exists v env',
    x = Torch.result c v /\
    w' = Torch.effect zero_grads gradient accumulate adam_step c
           (Torch.with_env w env').
Proof.
  unfold Torch.handler.
  destruct (Torch.refused c) as [e0|]; [discriminate|].
  destruct (oracle c w) as [[e0|v] env']; [discriminate|].
  intros [= <- <-]. exists v, env'. auto.
Qed.

(** One call: the generator's parameters change only in a step of the
    generator's optimizer that returns, the discriminator's only in a step
    of the discriminator's. *)
Lemma th_frame X (c : @Call fw X) (w : World) :
  (Torch.params (snd (th c w)) Torch.Gen = Torch.params w Torch.Gen \/
   updates_of (Ev c (fst (th c w))) = [Torch.Gen]) /\
  (Torch.params (snd (th c w)) Torch.Disc = Torch.params w Torch.Disc \/
   updates_of (Ev c (fst (th c w))) = [Torch.Disc]).
Proof.
  unfold Torch.handler.
  destruct (Torch.refused c) as [e0|]; [simpl; auto|].
  destruct (oracle c w) as [[e0|v] env']; [simpl; auto|].
  destruct c; simpl; auto.
  destruct o; simpl; auto.
Qed.

Lemma th_spares_generator X (c : @Call fw X) (w w' : World) r :
  Torch.spares_generator c ->
  th c w = (r, w') ->
  Torch.params w' Torch.Gen = Torch.params w Torch.Gen /\
  Torch.grads w' Torch.Gen = Torch.grads w Torch.Gen.
Proof.
  intros Hc. unfold Torch.handler.
  destruct (Torch.refused c) as [e0|]; [intros [= _ <-]; auto|].
  destruct (oracle c w) as [[e0|v] env']; intros [= _ <-]; [auto|].
  destruct c; simpl in *; auto.
  - rewrite Hc. auto.
  - subst o. auto.
  - subst o. auto.
Qed.

Lemma th_spares_discriminator X (c : @Call fw X) (w w' : World) r :
  Torch.spares_discriminator c ->
  th c w = (r, w') ->
  Torch.params w' Torch.Disc = Torch.params w Torch.Disc.
Proof.
  intros Hc. unfold Torch.handler.
  destruct (Torch.refused c) as [e0|]; [intros [= _ <-]; auto|].
  destruct (oracle c w) as [[e0|v] env']; intros [= _ <-]; [auto|].
  destruct c; simpl in *; auto.
  subst o. auto.
Qed.

Variable epochs : nat.
Variable dataloader : Dl.
Variable adv_loss : Loss.
Variable generator_latent_dim n_classes : nat.
Variable device : Device.

Abbreviation a :=
  (Torch.args Payload Arr Ds Img Fig Ax epochs dataloader adv_loss
     generator_latent_dim n_classes device).

(** What is known of the graphs of the tensors at hand. *)
Ltac known_graphs :=
  simpl;
  repeat match goal with
         | H : Torch.reach_gen ?t = _ |- context [Torch.reach_gen ?t] =>
             rewrite H
         | H : Torch.reach_disc ?t = _ |- context [Torch.reach_disc ?t] =>
             rewrite H
         end;
  simpl.

(** The graph of the tensor [r] a call returned. *)
Ltac graph_of_result r Hh :=
  let v := fresh "v" in
  let env' := fresh "env" in
  let Hr := fresh "Hr" in
  apply th_returned in Hh; destruct Hh as (v & env' & Hr & _);
  try (eassert (Torch.reach_gen r = _)
         by (rewrite Hr; known_graphs; reflexivity));
  try (eassert (Torch.reach_disc r = _)
         by (rewrite Hr; known_graphs; reflexivity));
  clear Hr.

(** One call of the discriminator's update: [Hp] and [Hg] say that the
    generator's parameters and gradients are still what they were. *)
Ltac generator_spared Hrun Hp Hg :=
  apply run_vis_inv in Hrun;
  let r := fresh "r" in
  let Hh := fresh "Hh" in
  let Hs := fresh "Hs" in
  let Hs1 := fresh "Hs" in
  let Hs2 := fresh "Hs" in
  destruct Hrun as [(?e & Hh & _ & _)|(r & ?w1 & ?tr1 & Hh & _ & Hrun)];
  [ apply th_spares_generator in Hh; [|known_graphs; auto];
    destruct Hh as [Hs1 Hs2]; rewrite Hs1, Hs2; split; assumption
  | pose proof Hh as Hs;
    apply th_spares_generator in Hs; [|known_graphs; auto];
    destruct Hs as [Hs1 Hs2];
    rewrite Hp in Hs1; rewrite Hg in Hs2; clear Hp Hg;
    rename Hs1 into Hp; rename Hs2 into Hg;
    graph_of_result r Hh; cbn [bind] in Hrun ].

Lemma discriminator_update_invariant
    (x y valid fake : TTensor) (batch_size : nat) (w0 w' : World)
    (P0 : Params) (G0 : Grads) tr o :
  Torch.reach_gen x = false -> Torch.reach_gen y = false ->
  Torch.reach_gen valid = false -> Torch.reach_gen fake = false ->
  Torch.params w0 Torch.Gen = P0 ->
  Torch.grads w0 Torch.Gen = G0 ->
  run th (train_discriminator a x y valid fake batch_size) w0 = (tr, o, w') ->
  Torch.params w' Torch.Gen = P0 /\ Torch.grads w' Torch.Gen = G0.
Proof.
  intros Hx Hy Hv Hf Hp Hg Hrun.
  unfold train_discriminator, sample_noise, sample_labels, call in Hrun.
  cbn [bind] in Hrun.
  repeat generator_spared Hrun Hp Hg.
  apply run_ret_inv in Hrun. destruct Hrun as (_ & _ & ->).
  split; assumption.
Qed.

(** One call of the generator's update: [Hp] says that the discriminator's
    parameters are still what they were. *)
Ltac discriminator_spared Hrun Hp :=
  apply run_vis_inv in Hrun;
  let r := fresh "r" in
  let Hh := fresh "Hh" in
  let Hs := fresh "Hs" in
  destruct Hrun as [(?e & Hh & _ & Hrun)|(r & ?w1 & ?tr1 & Hh & _ & Hrun)];
  [ apply th_spares_discriminator in Hh; [|known_graphs; auto];
    rewrite Hh; split; [assumption|subst; discriminate]
  | pose proof Hh as Hs;
    apply th_spares_discriminator in Hs; [|known_graphs; auto];
    rewrite Hp in Hs; clear Hp; rename Hs into Hp;
    graph_of_result r Hh; cbn [bind] in Hrun ].

Lemma generator_update_invariant
    (valid : TTensor) (batch_size : nat) (w0 w' : World) (P0 : Params) tr o :
  Torch.params w0 Torch.Disc = P0 ->
  run th (train_generator a valid batch_size) w0 = (tr, o, w') ->
  Torch.params w' Torch.Disc = P0 /\
  (forall g_loss, o = Done g_loss ->
     Torch.reach_disc g_loss = true /\ Torch.reach_gen g_loss = true).
Proof.
  intros Hp Hrun.
  unfold train_generator, sample_noise, sample_labels, call in Hrun.
  cbn [bind] in Hrun.
  repeat discriminator_spared Hrun Hp.
  apply run_ret_inv in Hrun. destruct Hrun as (_ & -> & ->).
  split; [assumption|].
  intros g_loss [= <-]. split; assumption.
Qed.

Lemma backward_calls_app (t1 t2 : @Trace fw) :
  backward_calls (t1 ++ t2) = backward_calls t1 ++ backward_calls t2.
Proof. apply flat_map_app. Qed.

Lemma paired_app (t1 t2 : @Trace fw) : Torch.Paired t1 -> Torch.Paired t2 -> Torch.Paired (t1 ++ t2).
Proof.
  intros (p1 & E1 & F1) (p2 & E2 & F2). exists (p1 ++ p2).
  rewrite backward_calls_app, E1, E2, flat_map_app.
  split; [reflexivity|]. apply Forall_app; auto.
Qed.

Lemma paired_quiet (tr : @Trace fw) : backward_calls tr = [] -> Torch.Paired tr.
Proof. intros E. exists []. rewrite E. split; [reflexivity|constructor]. Qed.

Lemma paired_cons_quiet (ev : @Event fw) (tr : @Trace fw) :
  backward_of ev = [] -> Torch.Paired tr -> Torch.Paired (ev :: tr).
Proof.
  intros E (ps & Eps & F). exists ps.
  change (ev :: tr) with ([ev] ++ tr).
  rewrite backward_calls_app, Eps.
  unfold backward_calls. simpl. rewrite E. auto.
Qed.

(** One call of a run under [th] that completed. *)
Ltac th_done Hrun :=
  apply run_vis_done in Hrun;
  let r := fresh "r" in
  let w1 := fresh "w" in
  let tr1 := fresh "tr" in
  let Hh := fresh "Hh" in
  destruct Hrun as (r & w1 & tr1 & Hh & -> & Hrun);
  graph_of_result r Hh; cbn [bind] in Hrun.

Lemma train_batch_backwards (xy : TTensor * TTensor) (running : float * float)
    (w w' : World) tr res :
  Torch.plain_batch xy ->
  run th (train_batch a xy running) w = (tr, Done res, w') ->
  exists p : TTensor * TTensor,
    backward_calls tr = [fst p; snd p] /\ Torch.cut_then_through p.
Proof.
  intros [Hx Hy] Hrun. destruct running as [rg rd].
  unfold train_batch, train_discriminator, train_generator, constant_column,
    sample_noise, sample_labels, call in Hrun.
  cbn [bind] in Hrun.
  repeat th_done Hrun.
  apply run_ret_inv in Hrun. destruct Hrun as (-> & _ & _).
  match goal with
  | |- context [Ev (Backward ?d) _ :: Ev (Step _) _ :: Ev (ZeroGrad _) _ :: _] =>
      match goal with
      | |- context [Ev (Backward ?g) _ :: Ev (Step _) _ :: Ev (Item _) _ :: _] =>
          exists (d, g)
      end
  end.
  split; [reflexivity|]. repeat split; assumption.
Qed.

Lemma batch_loop_backwards (bl : list (TTensor * TTensor))
    (running : float * float) (w w' : World) tr res :
  Forall (@Torch.plain_batch Payload) bl ->
  run th (for_each bl (train_batch a) running) w = (tr, Done res, w') ->
  Torch.Paired tr.
Proof.
  intros Hbl. revert running w tr.
  induction Hbl as [|xy bl Hxy Hbl IH]; intros running w tr Hrun.
  - apply run_ret_inv in Hrun. destruct Hrun as (-> & _ & _).
    apply paired_quiet; reflexivity.
  - cbn [for_each] in Hrun. apply run_bind_done in Hrun.
    destruct Hrun as (r1 & tr1 & w1 & tr2 & H1 & H2 & ->).
    apply paired_app; [|eapply IH; exact H2].
    eapply train_batch_backwards in H1; [|exact Hxy].
    destruct H1 as (p & E & Hp).
    exists [p]. simpl. split; [exact E|constructor; [exact Hp|constructor]].
Qed.

(** The batches the dataloader hands out carry no graph. *)
Lemma iterate_plain (dl : Dl) (w w' : World) (bs : list (TTensor * TTensor)) :
  th (Iterate (dl : @DataLoader fw)) w = (inr bs, w') ->
  Forall (@Torch.plain_batch Payload) bs.
Proof.
  intros Hh. apply th_returned in Hh. destruct Hh as (v & env' & -> & _).
  simpl. induction v as [|xy v IH]; simpl; constructor; [|exact IH].
  split; reflexivity.
Qed.

Lemma train_epoch_backwards (epoch : nat) (ml : ModelLoss) (w w' : World)
    tr ml' :
  run th (train_epoch a epoch ml) w = (tr, Done ml', w') -> Torch.Paired tr.
Proof.
  intros Hrun. unfold train_epoch in Hrun.
  rewrite Nat.mod_1_r in Hrun. cbn [Nat.eqb] in Hrun.
  unfold call in Hrun. cbn [bind] in Hrun.
  do 2 th_done Hrun.
  apply run_vis_done in Hrun.
  destruct Hrun as (bl & w2 & tr2 & Hit & -> & Hrun).
  apply iterate_plain in Hit.
  apply run_bind_done in Hrun.
  destruct Hrun as (running & trl & wl & tr3 & Hloop & Hrun & ->).
  eapply batch_loop_backwards in Hloop; [|exact Hit].
  exec_done Hrun.
  apply run_bind_done in Hrun.
  destruct Hrun as (g & trg & wg & tr4 & Hg & Hrun & ->).
  apply truediv_done in Hg. destruct Hg as (_ & _ & -> & _).
  exec_done Hrun.
  apply run_bind_done in Hrun.
  destruct Hrun as (d & trd & wd & tr5 & Hd & Hrun & ->).
  apply truediv_done in Hd. destruct Hd as (_ & _ & -> & _).
  unfold save_reconstruction, init_figure, plot_current_results, call in Hrun.
  cbn [bind fst snd] in Hrun.
  exec_done Hrun. subst.
  repeat (apply paired_cons_quiet; [reflexivity|]).
  apply paired_app; [exact Hloop|].
  apply paired_quiet; reflexivity.
Qed.

Lemma epoch_loop_backwards (n s : nat) (ml : ModelLoss) (w w' : World) tr ml' :
  run th (for_each (seq s n) (train_epoch a) ml) w = (tr, Done ml', w') ->
  Torch.Paired tr.
Proof.
  revert s ml w tr; induction n as [|n IH]; intros s ml w tr Hrun.
  - apply run_ret_inv in Hrun. destruct Hrun as (-> & _ & _).
    apply paired_quiet; reflexivity.
  - cbn [seq for_each] in Hrun. apply run_bind_done in Hrun.
    destruct Hrun as (ml1 & tr1 & w1 & tr2 & H1 & H2 & ->).
    apply paired_app; [eapply train_epoch_backwards; exact H1|].
    eapply IH; exact H2.
Qed.

Lemma train_model_backwards (w w' : World) tr (u : unit) :
  run th (train_model a) w = (tr, Done u, w') -> Torch.Paired tr.
Proof.
  intros Hrun. unfold train_model in Hrun.
  apply run_bind_done in Hrun.
  destruct Hrun as (ml & tr1 & w1 & tr2 & H1 & H2 & ->).
  apply paired_app; [eapply epoch_loop_backwards; exact H1|].
  unfold plot_loss, items, call in H2. cbn [for_each bind fst snd] in H2.
  exec_done H2. subst.
  apply paired_quiet; reflexivity.
Qed.

(** C1.  In the world of [Torch], whatever the kernels compute:
    - in every run of [train_model], a call changes the generator's
      parameters only if it is a returning [optimizer_G.step()], and the
      discriminator's parameters only if it is a returning
      [optimizer_D.step()];
    - the discriminator's update, given data and targets that carry no
      graph into the generator (as the tensors of the dataloader and the
      columns filled with 1.0 and 0.0 do), leaves the generator's
      parameters and also its gradients as they were, because the fake
      samples go through [detach()];
    - the generator's update leaves the discriminator's parameters as they
      were, although the loss it differentiates reaches the discriminator,
      so that [backward()] does add to the discriminator's gradients;
    - in a run of [train_model] that returns, [backward()] is called in
      pairs: on a [d_loss] whose graph reaches the discriminator but not
      the generator, then on a [g_loss] whose graph reaches both; and
      [backward()] on a tensor whose graph does not reach the generator
      leaves the generator's gradients as they were. *)
Theorem parameters_change_only_in_own_step :
  (forall w : World,
     Forall (fun t : World * Event * World =>
               let '(w1, ev, w2) := t in
               (Torch.params w2 Torch.Gen = Torch.params w1 Torch.Gen \/
                updates_of ev = [optimizer_G a]) /\
               (Torch.params w2 Torch.Disc = Torch.params w1 Torch.Disc \/
                updates_of ev = [optimizer_D a]))
       (transitions th (train_model a) w)) /\
  (forall (x y valid fake : TTensor) (batch_size : nat) (w : World),
     Torch.reach_gen x = false -> Torch.reach_gen y = false ->
     Torch.reach_gen valid = false -> Torch.reach_gen fake = false ->
     let r := run th (train_discriminator a x y valid fake batch_size) w in
     Torch.params (world_of r) Torch.Gen = Torch.params w Torch.Gen /\
     Torch.grads (world_of r) Torch.Gen = Torch.grads w Torch.Gen) /\
  (forall (valid : TTensor) (batch_size : nat) (w : World),
     let r := run th (train_generator a valid batch_size) w in
     Torch.params (world_of r) Torch.Disc = Torch.params w Torch.Disc /\
     (forall g_loss, outcome_of r = Done g_loss ->
        Torch.reach_disc g_loss = true /\ Torch.reach_gen g_loss = true)) /\
  (forall (w w' : World) tr (u : unit),
     run th (train_model a) w = (tr, Done u, w') ->
     exists ps : list (TTensor * TTensor),
       backward_calls tr = flat_map (fun p => [fst p; snd p]) ps /\
       Forall (fun p =>
                 Torch.reach_gen (fst p) = false /\
                 Torch.reach_disc (fst p) = true /\
                 Torch.reach_gen (snd p) = true /\
                 Torch.reach_disc (snd p) = true) ps) /\
  (forall (t : TTensor) (w : World),
     Torch.reach_gen t = false ->
     Torch.grads (snd (th (Backward (t : @Tensor fw)) w)) Torch.Gen
     = Torch.grads w Torch.Gen).
Proof.
  split; [|split; [|split; [|split]]].
  - intros w. apply transitions_forall. intros X c w0. apply th_frame.
  - intros x y valid fake batch_size w Hx Hy Hv Hf r. subst r.
    eapply discriminator_update_invariant;
      [exact Hx|exact Hy|exact Hv|exact Hf|reflexivity|reflexivity|].
    apply run_eta.
  - intros valid batch_size w r. subst r.
    eapply generator_update_invariant; [reflexivity|].
    apply run_eta.
  - intros w w' tr u Hrun. apply train_model_backwards in Hrun. exact Hrun.
  - intros t w Ht.
    eapply (@th_spares_generator _ (Backward (t : @Tensor fw))); [exact Ht|].
    apply surjective_pairing.
Qed.

End TorchFacts.

Lemma parameters_change_only_in_own_step_witness :
  let r := run Toy.torch_handler
             (train_discriminator Toy.torch_args Toy.torch_tensor
                Toy.torch_tensor Toy.torch_tensor Toy.torch_tensor 1)
             Toy.torch_world in
  Torch.reach_gen Toy.torch_tensor = false /\
  Torch.params (world_of r) Torch.Disc = 11 /\
  Torch.params (world_of r) Torch.Gen = 10 /\
  Torch.grads (world_of r) Torch.Gen = 0.
Proof.
  split; [reflexivity|].
  split; [vm_compute; reflexivity|].
  apply (proj1 (proj2 (parameters_change_only_in_own_step
                         Toy.torch_oracle (fun _ => 0) (fun _ _ _ => 1)
                         Nat.add (fun s p g => (p + g, S s))
                         1 tt tt 3 2 "cpu"%string))
           Toy.torch_tensor Toy.torch_tensor Toy.torch_tensor
           Toy.torch_tensor 1 Toy.torch_world
           eq_refl eq_refl eq_refl eq_refl).
Defined.

(** ** The generator's output *)

Section GeneratorFacts.
Import GeneratorNet.
Local Open Scope R_scope.

















End GeneratorFacts.
